(** * MilkCheck.Engine.Action: a shallow embedding of the Action life cycle

    The development follows [lib/MilkCheck/Engine/Action.py]: the [Action]
    entity (retry counter, delay, timing, worker result), its event handlers
    ([ev_start], [ev_timer], [ev_close]) and the recursive [prepare] /
    [update_status] pair that walks the dependency graph.

    Python objects live in a heap indexed by object identity; the calls made
    to the callback bus, the action manager and the parent service are
    recorded, in order, in a trace of events. *)

From Stdlib Require Import ZArith String.
From stdpp Require Import gmap list strings.

Local Open Scope Z_scope.

(** ** Data model *)

(** Status symbols of [MilkCheck.Engine.BaseEntity]. *)
Inductive Status :=
| NO_STATUS | WAITING_STATUS | DONE | SKIPPED | WARNING
| ERROR | TIMEOUT | DEP_ERROR | MISSING.

#[global] Instance Status_eq_dec : EqDecision Status.
Proof. solve_decision. Defined.

(** Dependency strengths. *)
Inductive Strength := REQUIRE | REQUIRE_WEAK | CHECK.

#[global] Instance Strength_eq_dec : EqDecision Strength.
Proof. solve_decision. Defined.

(** Object identity of an Action. *)
Definition aid := nat.

(** An edge of the dependency graph: [dep.target] is the remote entity. *)
Record Dependency := mkDependency {
  target : aid;
  dep_type : Strength
}.

(** The result object handed over by ClusterShell at [ev_close].  A
    [WorkerPopen] is the local single-process worker: one return code
    ([None] when the command timed out) and the [did_timeout()] flag.  Any
    other worker reports [iter_retcodes()], pairs of a return code and the
    nodes that produced it, and [iter_keys_timeout()], the nodes that timed
    out. *)
Inductive Worker :=
| WorkerPopen (retcode : option Z) (did_timeout : bool)
| WorkerDistant (iter_retcodes : list (Z * list string))
                (iter_keys_timeout : list string).

(** The part of the parent [Service] that an Action reads. *)
Record Service := mkService {
  service_name : string;
  simulate : bool
}.

(** Timestamps ([datetime.now()]), in seconds. *)
Definition Time := Z.

Record Action := mkAction {
  name : string;
  status : Status;
  parents : list Dependency;
  children : list Dependency;
  parent : Service;
  errors : Z;
  timeout : Z;
  delay : Z;
  _retry : Z;
  _retry_backup : Z;
  command : option string;
  worker : option Worker;
  start_time : option Time;
  stop_time : option Time
}.

(** [Action.__init__(name, target=None, command=None, timeout=-1, delay=0)],
    for an Action attached to the service [svc]. *)
Definition Action_init (nm : string) (svc : Service) (cmd : option string)
    (tmo dly : Z) : Action :=
  {| name := nm; status := NO_STATUS; parents := []; children := [];
     parent := svc; errors := 0; timeout := tmo; delay := dly;
     _retry := 0; _retry_backup := -1; command := cmd; worker := None;
     start_time := None; stop_time := None |}.

(** Attribute assignments. *)
Definition set_status (s : Status) (a : Action) : Action :=
  {| name := name a; status := s; parents := parents a;
     children := children a; parent := parent a; errors := errors a;
     timeout := timeout a; delay := delay a; _retry := _retry a;
     _retry_backup := _retry_backup a; command := command a;
     worker := worker a; start_time := start_time a;
     stop_time := stop_time a |}.

Definition set_delay (d : Z) (a : Action) : Action :=
  {| name := name a; status := status a; parents := parents a;
     children := children a; parent := parent a; errors := errors a;
     timeout := timeout a; delay := d; _retry := _retry a;
     _retry_backup := _retry_backup a; command := command a;
     worker := worker a; start_time := start_time a;
     stop_time := stop_time a |}.

Definition set__retry (r : Z) (a : Action) : Action :=
  {| name := name a; status := status a; parents := parents a;
     children := children a; parent := parent a; errors := errors a;
     timeout := timeout a; delay := delay a; _retry := r;
     _retry_backup := _retry_backup a; command := command a;
     worker := worker a; start_time := start_time a;
     stop_time := stop_time a |}.

Definition set__retry_backup (r : Z) (a : Action) : Action :=
  {| name := name a; status := status a; parents := parents a;
     children := children a; parent := parent a; errors := errors a;
     timeout := timeout a; delay := delay a; _retry := _retry a;
     _retry_backup := r; command := command a;
     worker := worker a; start_time := start_time a;
     stop_time := stop_time a |}.

Definition set_worker (w : option Worker) (a : Action) : Action :=
  {| name := name a; status := status a; parents := parents a;
     children := children a; parent := parent a; errors := errors a;
     timeout := timeout a; delay := delay a; _retry := _retry a;
     _retry_backup := _retry_backup a; command := command a;
     worker := w; start_time := start_time a;
     stop_time := stop_time a |}.

Definition set_start_time (t : option Time) (a : Action) : Action :=
  {| name := name a; status := status a; parents := parents a;
     children := children a; parent := parent a; errors := errors a;
     timeout := timeout a; delay := delay a; _retry := _retry a;
     _retry_backup := _retry_backup a; command := command a;
     worker := worker a; start_time := t;
     stop_time := stop_time a |}.

Definition set_stop_time (t : option Time) (a : Action) : Action :=
  {| name := name a; status := status a; parents := parents a;
     children := children a; parent := parent a; errors := errors a;
     timeout := timeout a; delay := delay a; _retry := _retry a;
     _retry_backup := _retry_backup a; command := command a;
     worker := worker a; start_time := start_time a;
     stop_time := t |}.

(** ** Exceptions *)

Inductive exn :=
| AssertionError (msg : string)
| RecursionError.

Inductive result (A : Type) :=
| Ok (x : A)
| Raise (e : exn).
Arguments Ok {A} x.
Arguments Raise {A} e.

(** ** Error and timeout counts of the last worker *)

(** Python truth value of an integer. *)
Definition truthy (n : Z) : bool := negb (n =? 0).

(** [Action.nb_timeout] *)
Definition nb_timeout (self : Action) : Z :=
  match worker self with
  | Some (WorkerPopen _ did_timeout) => if did_timeout then 1 else 0
  | Some (WorkerDistant _ keys) => Z.of_nat (length keys)
  | None => 0
  end.

(** The loop of [Action.nb_errors] over [iter_retcodes()]. *)
Fixpoint count_retcodes (rcs : list (Z * list string)) (error_count : Z) : Z :=
  match rcs with
  | [] => error_count
  | (retcode, nds) :: rest =>
      count_retcodes rest
        (if retcode =? 0 then error_count
         else error_count + Z.of_nat (length nds))
  end.

(** [Action.nb_errors] *)
Definition nb_errors (self : Action) : Z :=
  match worker self with
  | Some (WorkerPopen retcode _) =>
      match retcode with
      | None => 0
      | Some rc => if rc =? 0 then 0 else 1
      end
  | Some (WorkerDistant rcs _) => count_retcodes rcs 0
  | None => 0
  end.

(** The claim's wording of the multi-node count: the return codes seen node
    by node, and the number of nodes whose code is not zero. *)
Definition node_retcodes (rcs : list (Z * list string)) : list (string * Z) :=
  flat_map (fun p => map (fun nd => (nd, fst p)) (snd p)) rcs.

Definition nodes_in_error (rcs : list (Z * list string)) : Z :=
  Z.of_nat (length (filter (fun p => snd p ≠ 0) (node_retcodes rcs))).

(** The decision table of the completion handler, in the words of the
    specification: retry, or a final status. *)
Inductive decision :=
| Retry
| Final (s : Status).

Definition decision_table (errs timeouts retry tolerance : Z) : decision :=
  if decide ((0 < errs \/ 0 < timeouts) /\ 0 < retry) then Retry
  else if decide (tolerance < timeouts /\ errs = 0) then Final TIMEOUT
  else if decide (tolerance < errs + timeouts) then Final ERROR
  else Final DONE.

(** ** The retry property *)

(** [Action.set_retry] *)
Definition set_retry (retry : Z) (self : Action) : result Action :=
  if negb (0 <? delay self) then
    Raise (AssertionError "No way to specify retry without a delay")
  else if negb (0 <=? retry) then
    Raise (AssertionError "No way to specify a negative retry")
  else
    let self := set__retry retry self in
    Ok (if _retry_backup self =? -1 then set__retry_backup retry self
        else self).

(** [Action.get_retry] *)
Definition get_retry (self : Action) : Z := _retry self.

(** Modelled from the spec: [BaseEntity.reset] is not part of the sources at
    hand; the specification says that the status is reset to [NO_STATUS] by
    [reset()]. *)
Definition BaseEntity_reset (self : Action) : Action :=
  set_status NO_STATUS self.

(** [Action.reset] *)
Definition reset (self : Action) : Action :=
  let self := BaseEntity_reset self in
  let self := set_start_time None self in
  let self := set_stop_time None self in
  let self := set_worker None self in
  set__retry (_retry_backup self) self.

Definition set_command (c : option string) (a : Action) : Action :=
  {| name := name a; status := status a; parents := parents a;
     children := children a; parent := parent a; errors := errors a;
     timeout := timeout a; delay := delay a; _retry := _retry a;
     _retry_backup := _retry_backup a; command := c;
     worker := worker a; start_time := start_time a;
     stop_time := stop_time a |}.

(** The entries of [actdict] that [Action.fromdict] reads itself. *)
Record actdict := mkActdict {
  dict_delay : option Z;
  dict_cmd : option string;
  dict_retry : option Z
}.

(** [Action.fromdict].  [BaseEntity.fromdict], which is not part of the
    sources at hand, is the parameter [base]: what it does to the Action
    with the entries it handles, or the exception it raises. *)
Definition fromdict (base : Action -> result Action) (d : actdict)
    (self : Action) : result Action :=
  match base self with
  | Raise e => Raise e
  | Ok self =>
      let self :=
        match dict_delay d with
        | Some v => set_delay v self
        | None => self
        end in
      let self :=
        match dict_cmd d with
        | Some c => set_command (Some c) self
        | None => self
        end in
      match dict_retry d with
      | Some r => set_retry r self
      | None => Ok self
      end
  end.

(** What can happen to the retry counter of one Action over its life:
    [action.retry = r], the [retry -= 1] of a failed attempt,
    [action.delay = d] and [action.reset()]. *)
Inductive retry_op :=
| OpAssign (r : Z)
| OpDecrement
| OpAssignDelay (d : Z)
| OpReset.

Definition run_retry_op (o : retry_op) (self : Action) : result Action :=
  match o with
  | OpAssign r => set_retry r self
  | OpDecrement => set_retry (get_retry self - 1) self
  | OpAssignDelay d => Ok (set_delay d self)
  | OpReset => Ok (reset self)
  end.

Fixpoint run_retry_ops (ops : list retry_op) (self : Action) : result Action :=
  match ops with
  | [] => Ok self
  | o :: ops =>
      match run_retry_op o self with
      | Ok self => run_retry_ops ops self
      | Raise e => Raise e
      end
  end.

(** The first value given to [action.retry = r] in a history. *)
Fixpoint first_assigned (ops : list retry_op) : option Z :=
  match ops with
  | [] => None
  | OpAssign r :: _ => Some r
  | _ :: ops => first_assigned ops
  end.

(** ** The heap, the trace and the monad of the engine *)

#[global] Instance Action_inhabited : Inhabited Action :=
  populate (Action_init "" (mkService "" false) None (-1) 0).

(** Symbols of [MilkCheck.Callback]. *)
Inductive ev_type := EV_STARTED | EV_COMPLETE | EV_STATUS_CHANGED | EV_TRIGGER_DEP.

#[global] Instance ev_type_eq_dec : EqDecision ev_type.
Proof. solve_decision. Defined.

(** What [notify] is told about: an entity, or a pair [(self, dep.target)]. *)
Inductive subject :=
| entity (a : aid)
| edge (a b : aid).

(** Calls that leave the module, in the order they are made:
    [call_back_self().notify(obj, ev)], the three entry points of the action
    manager, and [parent.update_status(status)] on the parent service. *)
Inductive Event :=
| notify (obj : subject) (ev : ev_type)
| perform_action (a : aid)
| perform_delayed_action (a : aid)
| remove_task (a : aid)
| Service_update_status (svc : Service) (s : Status).

(** The Actions reachable by identity, and the number of clock readings
    taken so far. *)
Record World := mkWorld {
  actions : gmap aid Action;
  ticks : nat
}.

(** A computation returns [Ok] or raises; either way it leaves a world and
    the trace of the calls made up to that point. *)
Definition M (A : Type) : Type := World -> result A * World * list Event.

Definition ret {A} (x : A) : M A := fun w => (Ok x, w, []).

Definition bind {A B} (m : M A) (f : A -> M B) : M B :=
  fun w =>
    match m w with
    | (Ok x, w1, t1) =>
        match f x w1 with
        | (r, w2, t2) => (r, w2, t1 ++ t2)
        end
    | (Raise e, w1, t1) => (Raise e, w1, t1)
    end.

Definition raise {A} (e : exn) : M A := fun w => (Raise e, w, []).

Definition emit (e : Event) : M unit := fun w => (Ok tt, w, [e]).

Definition heap : M (gmap aid Action) := fun w => (Ok (actions w), w, []).

Definition getattr {A} (self : aid) (f : Action -> A) : M A :=
  fun w => (Ok (f (actions w !!! self)), w, []).

(** The world after [self] has been replaced by [f self]. *)
Definition upd (self : aid) (f : Action -> Action) (w : World) : World :=
  mkWorld (<[self := f (actions w !!! self)]> (actions w)) (ticks w).

(** The world after one more reading of the clock. *)
Definition tick (w : World) : World := mkWorld (actions w) (S (ticks w)).

Definition setattr (self : aid) (f : Action -> Action) : M unit :=
  fun w => (Ok tt, upd self f w, []).

(** Assignment through a property whose setter may raise. *)
Definition setprop (self : aid) (f : Action -> result Action) : M unit :=
  fun w =>
    match f (actions w !!! self) with
    | Ok a => (Ok tt, upd self (fun _ => a) w, [])
    | Raise e => (Raise e, w, [])
    end.

Declare Scope monad_scope.
Delimit Scope monad_scope with monad.
Notation "x <- c1 ;; c2" := (bind c1 (fun x => c2))
  (at level 100, c1 at next level, right associativity) : monad_scope.
Notation "e1 ;; e2" := (bind e1 (fun _ => e2))
  (at level 100, right associativity) : monad_scope.
Local Open Scope monad_scope.

Definition when (b : bool) (m : M unit) : M unit := if b then m else ret tt.

(** [for x in l: body(x)] *)
Fixpoint for_each {A} (l : list A) (body : A -> M unit) : M unit :=
  match l with
  | [] => ret tt
  | x :: l' => body x ;; for_each l' body
  end.

(** What a run leaves behind. *)
Definition result_of {A} (r : result A * World * list Event) : result A := r.1.1.
Definition world_of {A} (r : result A * World * list Event) : World := r.1.2.
Definition trace_of {A} (r : result A * World * list Event) : list Event := r.2.

(** [m], started in [w], ends in a world that satisfies [I], and every call
    it makes satisfies [E]. *)
Definition holds {A} (I : World -> Prop) (E : Event -> Prop) (m : M A)
    (w : World) : Prop :=
  I (world_of (m w)) /\ Forall E (trace_of (m w)).

(** The events delivered by the master task to the handler of an Action. *)
Inductive handler_event :=
| Ev_start (a : aid)
| Ev_timer (a : aid)
| Ev_close (a : aid) (w : Worker).

(** Modelled from the spec: [BaseEntity.search_deps] is not part of the
    sources at hand; it returns the edges whose remote endpoint status is in
    the given set, and [Action.prepare] walks the parent edges with it. *)
Definition search_deps (h : gmap aid Action) (self : aid)
    (symbols : list Status) : list Dependency :=
  filter (fun dep => status (h !!! target dep) ∈ symbols)
         (parents (h !!! self)).

(** The methods that Action inherits from [BaseEntity] (or calls on its
    parent service) and that are not part of the sources at hand.  They only
    read the graph. *)
Class BaseEntityOps := {
  eval_deps_status : gmap aid Action -> aid -> Status;
  skipped : gmap aid Action -> aid -> bool;
  is_ready : gmap aid Action -> aid -> bool;
  Service_eval_deps_status : gmap aid Action -> Service -> Status
}.

(** Statuses accepted by [Action.update_status]. *)
Definition action_statuses : list Status :=
  [NO_STATUS; WAITING_STATUS; DONE; SKIPPED; ERROR; TIMEOUT].

Section Engine.

Context `{BaseEntityOps}.

(** [clock i] is what the [i]-th call of [datetime.now()] returns. *)
Variable clock : nat -> Time.

Definition now : M Time :=
  fun w => (Ok (clock (ticks w)), tick w, []).

(** [Action.schedule] *)
Definition schedule (allow_delay : bool) (self : aid) : M unit :=
  start <- getattr self start_time ;;
  match start with
  | None => t <- now ;; setattr self (set_start_time (Some t))
  | Some _ => ret tt
  end ;;
  d <- getattr self delay ;;
  if (0 <? d) && allow_delay then emit (perform_delayed_action self)
  else emit (perform_action self).

(** [Action.prepare] and [Action.update_status].  They call each other
    along the edges of the graph; [fuel] bounds the depth of the call
    stack, and running out of it is Python's [RecursionError]. *)
Fixpoint prepare (fuel : nat) (self : aid) {struct fuel} : M unit :=
  match fuel with
  | O => raise RecursionError
  | S fuel =>
      h <- heap ;;
      let deps_status := eval_deps_status h self in
      if bool_decide (status (h !!! self) = NO_STATUS)
         && negb (bool_decide (deps_status = WAITING_STATUS)) then
        if skipped h self then
          update_status fuel self SKIPPED
        else if bool_decide (deps_status = DEP_ERROR)
                || bool_decide (parents (h !!! self) = []) then
          update_status fuel self WAITING_STATUS ;;
          schedule true self
        else if bool_decide (deps_status = DONE) then
          update_status fuel self DONE
        else
          for_each (search_deps h self [NO_STATUS])
                   (fun dep => prepare fuel (target dep))
      else ret tt
  end
with update_status (fuel : nat) (self : aid) (st : Status) {struct fuel}
    : M unit :=
  match fuel with
  | O => raise RecursionError
  | S fuel =>
      if negb (bool_decide (st ∈ action_statuses)) then
        raise (AssertionError "Bad action status")
      else
        setattr self (set_status st) ;;
        emit (notify (entity self) EV_STATUS_CHANGED) ;;
        if negb (bool_decide (st ∈ [NO_STATUS; WAITING_STATUS])) then
          svc <- getattr self parent ;;
          when (negb (simulate svc))
               (emit (notify (entity self) EV_COMPLETE)) ;;
          deps <- getattr self children ;;
          if negb (bool_decide (deps = [])) then
            for_each deps (fun dep =>
              h <- heap ;;
              if is_ready h (target dep) then
                svc <- getattr self parent ;;
                when (negb (simulate svc))
                     (emit (notify (edge self (target dep)) EV_TRIGGER_DEP)) ;;
                prepare fuel (target dep)
              else ret tt)
          else
            svc <- getattr self parent ;;
            s <- getattr self status ;;
            emit (Service_update_status svc s)
        else ret tt
  end.

(** The body of the loop of [update_status] over
    [self.children.values()]. *)
Definition trigger_dep (fuel : nat) (self : aid) (dep : Dependency) : M unit :=
  h <- heap ;;
  if is_ready h (target dep) then
    svc <- getattr self parent ;;
    when (negb (simulate svc))
         (emit (notify (edge self (target dep)) EV_TRIGGER_DEP)) ;;
    prepare fuel (target dep)
  else ret tt.

(** [MilkCheckEventHandler.ev_start], for the handler of Action [self]. *)
Definition ev_start (self : aid) : M unit :=
  svc <- getattr self parent ;;
  when (negb (simulate svc)) (emit (notify (entity self) EV_STARTED)).

(** [MilkCheckEventHandler.ev_timer] *)
Definition ev_timer (self : aid) : M unit :=
  svc <- getattr self parent ;;
  if simulate svc then
    h <- heap ;;
    emit (Service_update_status svc (Service_eval_deps_status h svc))
  else schedule false self.

(** [ActionEventHandler.ev_close] *)
Definition ev_close (fuel : nat) (self : aid) (w : Worker) : M unit :=
  t <- now ;;
  setattr self (set_stop_time (Some t)) ;;
  emit (remove_task self) ;;
  setattr self (set_worker (Some w)) ;;
  errs <- getattr self nb_errors ;;
  timeouts <- getattr self nb_timeout ;;
  retry <- getattr self get_retry ;;
  if (truthy errs || truthy timeouts) && (0 <? retry) then
    retry <- getattr self get_retry ;;
    setprop self (set_retry (retry - 1)) ;;
    schedule true self
  else
    tolerance <- getattr self errors ;;
    if (tolerance <? timeouts) && (errs =? 0) then
      update_status fuel self TIMEOUT
    else if tolerance <? errs + timeouts then
      update_status fuel self ERROR
    else
      update_status fuel self DONE.

(** The master task delivers events one after the other; an exception
    ends the run. *)
Definition handle (fuel : nat) (e : handler_event) : M unit :=
  match e with
  | Ev_start a => ev_start a
  | Ev_timer a => ev_timer a
  | Ev_close a w => ev_close fuel a w
  end.

Definition run (fuel : nat) (evs : list handler_event) : M unit :=
  for_each evs (handle fuel).

End Engine.

(** ** Vocabulary of the statements *)

(** Whether the parent service of [x] runs in simulate mode. *)
Definition simulated (w : World) (x : aid) : bool :=
  simulate (parent (actions w !!! x)).

(** A call respects simulate mode when it is not one of the notifications
    [EV_STARTED], [EV_COMPLETE] or [EV_TRIGGER_DEP] sent on behalf of an
    Action whose parent service simulates. *)
Definition respects_simulate (w : World) (e : Event) : Prop :=
  match e with
  | notify (entity x) EV_STARTED => simulated w x = false
  | notify (entity x) EV_COMPLETE => simulated w x = false
  | notify (edge x _) EV_TRIGGER_DEP => simulated w x = false
  | _ => True
  end.

(** The world in which [ev_close] counts errors: one clock reading taken,
    [stop_time] and [worker] assigned. *)
Definition closed (clock : nat -> Time) (self : aid) (wk : Worker)
    (w : World) : World :=
  upd self (set_worker (Some wk))
      (upd self (set_stop_time (Some (clock (ticks w)))) (tick w)).

(** [a] was first scheduled at the reading [i0] of the clock, which lies in
    the past. *)
Definition started (clock : nat -> Time) (a : aid) (i0 : nat) (w : World)
    : Prop :=
  start_time (actions w !!! a) = Some (clock i0) /\ (i0 <= ticks w)%nat.

(** The last attempt of [a] completed at or after the reading [i0]. *)
Definition stopped (clock : nat -> Time) (a : aid) (i0 : nat) (w : World)
    : Prop :=
  exists t1, stop_time (actions w !!! a) = Some t1 /\ clock i0 <= t1.

(** The run did not stop on a failed assertion. *)
Definition no_assertion {A} (r : result A * World * list Event) : Prop :=
  forall msg, result_of r ≠ Raise (AssertionError msg).

(** The fields of an Action that describe the graph and the configuration,
    as opposed to the progress of a run. *)
Definition same_config (a a' : Action) : Prop :=
  name a' = name a /\ parents a' = parents a /\ children a' = children a /\
  parent a' = parent a /\ errors a' = errors a /\ timeout a' = timeout a /\
  delay a' = delay a /\ command a' = command a.

(** The action manager is asked to run [x], now or after its delay. *)
Definition schedules (x : aid) (e : Event) : Prop :=
  e = perform_action x \/ e = perform_delayed_action x.

(** ** A concrete instance, used to run the engine on examples *)

(** Modelled from the spec: [BaseEntity.eval_deps_status] is not part of the
    sources at hand.  The specification reduces the parent dependencies to
    [WAITING_STATUS] if any parent is waiting, else to [DEP_ERROR] if a
    [REQUIRE] parent is in [ERROR], [TIMEOUT] or [DEP_ERROR], else to [DONE]
    if every parent is [DONE], [SKIPPED] or [WARNING], else to
    [NO_STATUS]. *)
Definition eval_deps_status_spec (h : gmap aid Action) (self : aid) : Status :=
  let st dep := status (h !!! target dep) in
  let ps := parents (h !!! self) in
  if existsb (fun dep => bool_decide (st dep = WAITING_STATUS)) ps then
    WAITING_STATUS
  else if existsb (fun dep => bool_decide (dep_type dep = REQUIRE)
                       && bool_decide (st dep ∈ [ERROR; TIMEOUT; DEP_ERROR])) ps
  then DEP_ERROR
  else if forallb (fun dep => bool_decide (st dep ∈ [DONE; SKIPPED; WARNING])) ps
  then DONE
  else NO_STATUS.

(** An entity counts as ready here when none of its parents is still in
    [NO_STATUS] or [WAITING_STATUS]; nothing is skipped. *)
Definition sample_ops : BaseEntityOps :=
  {| eval_deps_status := eval_deps_status_spec;
     skipped := fun _ _ => false;
     is_ready := fun h a =>
       forallb (fun dep => negb (bool_decide
                  (status (h !!! target dep) ∈ [NO_STATUS; WAITING_STATUS])))
               (parents (h !!! a));
     Service_eval_deps_status := fun _ _ => NO_STATUS |}.

(** A clock that advances by one second at every reading. *)
Definition sample_clock (i : nat) : Time := 1000 + Z.of_nat i.

Definition svc_live : Service := mkService "svc" false.
Definition svc_simulated : Service := mkService "svc" true.

(** An Action [start] of the service [svc] with the given fields. *)
Definition sample_action (svc : Service) (st : Status)
    (ps cs : list Dependency) (dly retry : Z) : Action :=
  {| name := "start"; status := st; parents := ps; children := cs;
     parent := svc; errors := 0; timeout := -1; delay := dly;
     _retry := retry; _retry_backup := retry; command := Some "/bin/false";
     worker := None; start_time := None; stop_time := None |}.

Definition sample_world (l : list (aid * Action)) : World :=
  mkWorld (list_to_map l) 0.

(** * Properties *)

(** ** Error and timeout counts *)

Lemma filter_node_retcodes_one (rc : Z) (nds : list string) :
  length (filter (fun p : string * Z => snd p ≠ 0)
                 (map (fun nd => (nd, rc)) nds))
  = if rc =? 0 then 0%nat else length nds.
Proof.
  induction nds as [|nd nds IH]; simpl.
  - by destruct (rc =? 0).
  - destruct (Z.eqb_spec rc 0) as [->|Hrc].
    + rewrite filter_cons_False; [exact IH | simpl; tauto].
    + rewrite filter_cons_True by (simpl; exact Hrc).
      simpl. by rewrite IH.
Qed.

Lemma count_retcodes_acc (rcs : list (Z * list string)) (acc : Z) :
  count_retcodes rcs acc = acc + nodes_in_error rcs.
Proof.
  revert acc. induction rcs as [|[rc nds] rcs IH]; intros acc.
  - unfold nodes_in_error. simpl. lia.
  - simpl. rewrite IH. unfold nodes_in_error, node_retcodes. simpl.
    rewrite filter_app, length_app, filter_node_retcodes_one.
    destruct (rc =? 0); lia.
Qed.

Lemma nb_errors_nonneg (self : Action) : 0 <= nb_errors self.
Proof.
  unfold nb_errors.
  destruct (worker self) as [[[rc|] ?|rcs ?]|]; try lia.
  - destruct (rc =? 0); lia.
  - rewrite count_retcodes_acc. unfold nodes_in_error. lia.
Qed.

Lemma nb_timeout_nonneg (self : Action) : 0 <= nb_timeout self.
Proof.
  unfold nb_timeout.
  destruct (worker self) as [[? []|? ?]|]; lia.
Qed.

(** C2: [nb_errors()] is 0 without a worker; for a [WorkerPopen] it is 1
    exactly when the return code is neither [None] nor 0 (and 0 otherwise);
    for any other worker it is the number of nodes whose return code is not
    zero.  [nb_timeout()] is 0 without a worker, 1 for a [WorkerPopen]
    exactly when [did_timeout()] holds (and 0 otherwise), and else the
    length of the worker's timeout list. *)
Theorem nb_errors_nb_timeout_counts (self : Action) :
  (worker self = None -> nb_errors self = 0 /\ nb_timeout self = 0) /\
  (forall retcode did_timeout,
      worker self = Some (WorkerPopen retcode did_timeout) ->
      (nb_errors self = 1 <-> retcode ≠ None /\ retcode ≠ Some 0) /\
      (nb_errors self = 0 \/ nb_errors self = 1) /\
      (nb_timeout self = 1 <-> did_timeout = true) /\
      (nb_timeout self = 0 \/ nb_timeout self = 1)) /\
  (forall rcs keys,
      worker self = Some (WorkerDistant rcs keys) ->
      nb_errors self = nodes_in_error rcs /\
      nb_timeout self = Z.of_nat (length keys)).
Proof.
  unfold nb_errors, nb_timeout. repeat split.
  - by rewrite H.
  - by rewrite H.
  - rewrite H in H0. destruct retcode as [rc|]; [|lia]. discriminate.
  - rewrite H in H0. destruct retcode as [rc|]; [|lia].
    destruct (Z.eqb_spec rc 0); [lia | congruence].
  - intros [Hn Hz]. rewrite H. destruct retcode as [rc|]; [|congruence].
    destruct (Z.eqb_spec rc 0); [congruence | reflexivity].
  - rewrite H. destruct retcode as [rc|]; [|by left].
    destruct (rc =? 0); [by left | by right].
  - rewrite H. destruct did_timeout; [done | lia].
  - intros ->. by rewrite H.
  - rewrite H. destruct did_timeout; [by right | by left].
  - rewrite H. rewrite count_retcodes_acc. lia.
  - by rewrite H.
Qed.

Lemma nb_errors_nb_timeout_counts_witness :
  let a w := set_worker w (Action_init "start" svc_live None (-1) 0) in
  let rcs := [(0, ["n1"; "n2"]); (1, ["n3"]); (127, ["n4"; "n5"])] in
  (nb_errors (a None) = 0 /\ nb_timeout (a None) = 0) /\
  (nb_errors (a (Some (WorkerPopen (Some 2) false))) = 1 <->
     Some 2 ≠ None /\ Some 2 ≠ Some 0) /\
  (nb_timeout (a (Some (WorkerPopen None true))) = 1 <-> true = true) /\
  nb_errors (a (Some (WorkerDistant rcs ["n6"]))) = nodes_in_error rcs /\
  nb_timeout (a (Some (WorkerDistant rcs ["n6"]))) = 1.
Proof.
  intros a rcs. split; [|split; [|split]].
  - destruct (nb_errors_nb_timeout_counts (a None)) as (H & _ & _).
    apply H. reflexivity.
  - destruct (nb_errors_nb_timeout_counts
                (a (Some (WorkerPopen (Some 2) false)))) as (_ & H & _).
    apply (H (Some 2) false). reflexivity.
  - destruct (nb_errors_nb_timeout_counts
                (a (Some (WorkerPopen None true)))) as (_ & H & _).
    apply (H None true). reflexivity.
  - destruct (nb_errors_nb_timeout_counts
                (a (Some (WorkerDistant rcs ["n6"])))) as (_ & _ & H).
    apply (H rcs ["n6"]). reflexivity.
Defined.

(** ** The retry property and [reset] *)

Lemma set_retry_Ok (retry : Z) (self self' : Action) :
  set_retry retry self = Ok self' ->
  0 < delay self /\ 0 <= retry /\
  _retry self' = retry /\
  _retry_backup self' =
    (if _retry_backup self =? -1 then retry else _retry_backup self) /\
  delay self' = delay self /\ status self' = status self /\
  start_time self' = start_time self /\ stop_time self' = stop_time self /\
  parent self' = parent self.
Proof.
  unfold set_retry.
  destruct (Z.ltb_spec 0 (delay self)); simpl; [|discriminate].
  destruct (Z.leb_spec 0 retry); simpl; [|discriminate].
  intros [= <-]. destruct (_retry_backup self =? -1); simpl; auto 10.
Qed.

Lemma set_retry_succeeds (retry : Z) (self : Action) :
  0 < delay self -> 0 <= retry ->
  exists self', set_retry retry self = Ok self'.
Proof.
  intros Hd Hr. unfold set_retry.
  destruct (Z.ltb_spec 0 (delay self)); simpl; [|lia].
  destruct (Z.leb_spec 0 retry); simpl; [eauto | lia].
Qed.

(** C3: assigning a positive retry to an Action whose delay is not greater
    than 0 raises an [AssertionError], and so does assigning a negative
    retry; when [delay > 0] and [retry >= 0] the assignment succeeds, stores
    the value, and no assertion can fire. *)
Theorem set_retry_assertions (self : Action) (retry : Z) :
  (0 < retry -> ¬ 0 < delay self ->
   set_retry retry self
   = Raise (AssertionError "No way to specify retry without a delay")) /\
  (retry < 0 ->
   exists msg, set_retry retry self = Raise (AssertionError msg)) /\
  (0 < delay self -> 0 <= retry ->
   (exists self', set_retry retry self = Ok self' /\ get_retry self' = retry) /\
   forall e, set_retry retry self ≠ Raise e).
Proof.
  unfold set_retry. repeat split.
  - intros _ Hd. destruct (Z.ltb_spec 0 (delay self)); [lia | reflexivity].
  - intros Hr. destruct (Z.ltb_spec 0 (delay self)); simpl; [|eauto].
    destruct (Z.leb_spec 0 retry); simpl; [lia | eauto].
  - destruct (Z.ltb_spec 0 (delay self)); simpl; [|lia].
    destruct (Z.leb_spec 0 retry); simpl; [|lia].
    eexists. split; [reflexivity|].
    unfold get_retry. by destruct (_ =? _).
  - intros e. destruct (Z.ltb_spec 0 (delay self)); simpl; [|lia].
    destruct (Z.leb_spec 0 retry); simpl; [discriminate | lia].
Qed.

Lemma set_retry_assertions_witness :
  set_retry 2 (Action_init "start" svc_live None (-1) 0)
  = Raise (AssertionError "No way to specify retry without a delay") /\
  (exists msg, set_retry (-1) (Action_init "start" svc_live None (-1) 3)
               = Raise (AssertionError msg)) /\
  (exists self', set_retry 5 (Action_init "start" svc_live None (-1) 3)
                 = Ok self' /\ get_retry self' = 5).
Proof.
  split; [|split].
  - apply (set_retry_assertions (Action_init "start" svc_live None (-1) 0) 2);
      simpl; lia.
  - apply (set_retry_assertions (Action_init "start" svc_live None (-1) 3) (-1)).
    lia.
  - apply (set_retry_assertions (Action_init "start" svc_live None (-1) 3) 5);
      simpl; lia.
Defined.

Lemma run_retry_ops_backup_kept (ops : list retry_op) (self self' : Action) :
  _retry_backup self ≠ -1 ->
  run_retry_ops ops self = Ok self' ->
  _retry_backup self' = _retry_backup self.
Proof.
  revert self. induction ops as [|o ops IH]; intros self Hb; simpl.
  - by intros [= <-].
  - destruct (run_retry_op o self) as [self1|e] eqn:Ho; [|discriminate].
    intros Hrun.
    assert (_retry_backup self1 = _retry_backup self) as Hkeep.
    { destruct o; simpl in Ho.
      - apply set_retry_Ok in Ho as (_ & _ & _ & -> & _).
        destruct (Z.eqb_spec (_retry_backup self) (-1)); congruence.
      - apply set_retry_Ok in Ho as (_ & _ & _ & -> & _).
        destruct (Z.eqb_spec (_retry_backup self) (-1)); congruence.
      - by injection Ho as <-.
      - by injection Ho as <-. }
    rewrite <- Hkeep. apply IH; [congruence | done].
Qed.

Lemma run_retry_ops_first_assigned (ops : list retry_op) (self self' : Action)
    (r : Z) :
  _retry_backup self = -1 -> _retry self <= 0 ->
  run_retry_ops ops self = Ok self' ->
  first_assigned ops = Some r ->
  _retry_backup self' = r.
Proof.
  revert self. induction ops as [|o ops IH]; intros self Hb Hr; simpl.
  - discriminate.
  - destruct (run_retry_op o self) as [self1|e] eqn:Ho; [|discriminate].
    intros Hrun Hfirst. destruct o; simpl in Ho.
    + injection Hfirst as ->.
      apply set_retry_Ok in Ho as (_ & Hpos & _ & Hbk & _).
      rewrite Hb in Hbk. simpl in Hbk.
      rewrite (run_retry_ops_backup_kept ops self1 self'); [done | lia | done].
    + apply set_retry_Ok in Ho as (_ & Hpos & _). unfold get_retry in Hpos. lia.
    + injection Ho as <-. by apply (IH (set_delay d self)).
    + injection Ho as <-. apply (IH (reset self)); [done | | done | done].
      simpl. lia.
Qed.

(** C9: [reset()] puts the status back to [NO_STATUS], clears [start_time],
    [stop_time] and [worker], and restores [retry] from the backup; for an
    Action built by [Action.__init__] the backup is the first value ever
    assigned to [retry], whatever assignments, decrements, delay changes and
    resets came after it. *)
Theorem reset_restores_first_retry :
  (forall self : Action,
      status (reset self) = NO_STATUS /\
      start_time (reset self) = None /\
      stop_time (reset self) = None /\
      worker (reset self) = None /\
      get_retry (reset self) = _retry_backup self /\
      _retry_backup (reset self) = _retry_backup self) /\
  (forall nm svc cmd tmo dly ops self' r,
      run_retry_ops ops (Action_init nm svc cmd tmo dly) = Ok self' ->
      first_assigned ops = Some r ->
      get_retry (reset self') = r).
Proof.
  split.
  - intros self. by repeat split.
  - intros nm svc cmd tmo dly ops self' r Hrun Hfirst.
    change (get_retry (reset self')) with (_retry_backup self').
    eapply run_retry_ops_first_assigned; [| |exact Hrun|exact Hfirst]; simpl;
      [reflexivity | lia].
Qed.

Lemma reset_restores_first_retry_witness :
  run_retry_ops [OpAssign 5; OpAssign 3; OpDecrement; OpReset; OpDecrement]
                (Action_init "start" svc_live None (-1) 3)
  = Ok (set__retry 4 (set__retry_backup 5
          (Action_init "start" svc_live None (-1) 3))) /\
  get_retry (reset (set__retry 4 (set__retry_backup 5
          (Action_init "start" svc_live None (-1) 3)))) = 5.
Proof.
  split; [vm_compute; reflexivity|].
  apply (proj2 reset_restores_first_retry
           "start" svc_live None (-1) 3
           [OpAssign 5; OpAssign 3; OpDecrement; OpReset; OpDecrement]);
    vm_compute; reflexivity.
Defined.

(** Closed (non-)membership of a status in a list of statuses. *)
Ltac status_mem :=
  unfold action_statuses; apply (bool_decide_unpack _); exact I.

(** ** Reading and writing the heap *)

Lemma lookup_upd (x y : aid) (f : Action -> Action) (w : World) :
  actions (upd x f w) !!! y
  = if decide (x = y) then f (actions w !!! x) else actions w !!! y.
Proof. unfold upd. simpl. apply lookup_total_insert. Qed.

Lemma lookup_upd_eq (x : aid) (f : Action -> Action) (w : World) :
  actions (upd x f w) !!! x = f (actions w !!! x).
Proof. rewrite lookup_upd. by rewrite decide_True. Qed.

Lemma lookup_upd_ne (x y : aid) (f : Action -> Action) (w : World) :
  x ≠ y -> actions (upd x f w) !!! y = actions w !!! y.
Proof. intros. rewrite lookup_upd. by rewrite decide_False. Qed.

Lemma ticks_upd (x : aid) (f : Action -> Action) (w : World) :
  ticks (upd x f w) = ticks w.
Proof. reflexivity. Qed.

Lemma actions_tick (w : World) : actions (tick w) = actions w.
Proof. reflexivity. Qed.

(** A field that the writer [f] leaves alone reads the same after [upd]. *)
Lemma field_upd {A} (g : Action -> A) (f : Action -> Action) (x y : aid)
    (w : World) :
  (forall a, g (f a) = g a) ->
  g (actions (upd x f w) !!! y) = g (actions w !!! y).
Proof.
  intros Hf. rewrite lookup_upd. destruct (decide (x = y)) as [->|]; auto.
Qed.

#[global] Opaque upd.

Lemma bind_run {A B} (m : M A) (f : A -> M B) (w : World) :
  bind m f w
  = match result_of (m w) with
    | Ok x =>
        (result_of (f x (world_of (m w))), world_of (f x (world_of (m w))),
         trace_of (m w) ++ trace_of (f x (world_of (m w))))
    | Raise e => (Raise e, world_of (m w), trace_of (m w))
    end.
Proof.
  unfold bind, result_of, world_of, trace_of.
  destruct (m w) as [[[x|e] w1] t1]; simpl; [|reflexivity].
  by destruct (f x w1) as [[r w2] t2].
Qed.

(** ** Invariants of the traversal *)

Lemma holds_bind {A B} (I : World -> Prop) (E : Event -> Prop)
    (m : M A) (f : A -> M B) (w : World) :
  holds I E m w ->
  (forall x, result_of (m w) = Ok x -> holds I E (f x) (world_of (m w))) ->
  holds I E (bind m f) w.
Proof.
  unfold holds. intros [HI HE] Hf. rewrite bind_run.
  destruct (result_of (m w)) as [x|e] eqn:Hr; [|by split].
  destruct (Hf x eq_refl) as [HI' HE'].
  split; [exact HI' | by apply Forall_app].
Qed.

Lemma holds_for_each {A} (I : World -> Prop) (E : Event -> Prop)
    (l : list A) (body : A -> M unit) :
  (forall x w, x ∈ l -> I w -> holds I E (body x) w) ->
  forall w, I w -> holds I E (for_each l body) w.
Proof.
  induction l as [|x l IH]; intros Hbody w HI; simpl.
  - by split.
  - apply holds_bind.
    + apply Hbody; [left | done].
    + intros _ _. apply IH.
      * intros y w' Hy. apply Hbody. by right.
      * apply Hbody; [left | done].
Qed.

(** ** What one call does *)

Section Calls.

Context `{BaseEntityOps}.
Variable clock : nat -> Time.

Lemma schedule_run (allow_delay : bool) (self : aid) (w : World) :
  schedule clock allow_delay self w
  = (Ok tt,
     match start_time (actions w !!! self) with
     | None => upd self (set_start_time (Some (clock (ticks w)))) (tick w)
     | Some _ => w
     end,
     [if (0 <? delay (actions w !!! self)) && allow_delay
      then perform_delayed_action self else perform_action self]).
Proof.
  unfold schedule, bind, getattr, now, setattr, emit, ret. simpl.
  destruct (start_time (actions w !!! self)) eqn:Hs; simpl.
  - by destruct (_ && _).
  - rewrite lookup_upd_eq. simpl. by destruct (_ && _).
Qed.

Lemma update_status_S (fuel : nat) (self : aid) (st : Status) (w : World) :
  update_status clock (S fuel) self st w
  = if negb (bool_decide (st ∈ action_statuses)) then
      (Raise (AssertionError "Bad action status"), w, [])
    else
      let w1 := upd self (set_status st) w in
      let svc := parent (actions w !!! self) in
      let changed := notify (entity self) EV_STATUS_CHANGED in
      let complete :=
        if simulate svc then [] else [notify (entity self) EV_COMPLETE] in
      if negb (bool_decide (st ∈ [NO_STATUS; WAITING_STATUS])) then
        if bool_decide (children (actions w !!! self) = []) then
          (Ok tt, w1, changed :: complete ++ [Service_update_status svc st])
        else
          let r := for_each (children (actions w !!! self))
                            (trigger_dep clock fuel self) w1 in
          (result_of r, world_of r, changed :: complete ++ trace_of r)
      else (Ok tt, w1, [changed]).
Proof.
  simpl. destruct (bool_decide (st ∈ action_statuses)); simpl; [|done].
  unfold bind at 1. unfold setattr at 1. simpl.
  unfold bind at 1. unfold emit at 1. simpl.
  destruct (bool_decide (st ∈ [NO_STATUS; WAITING_STATUS])); simpl; [done|].
  unfold bind at 1. unfold getattr at 1. simpl.
  rewrite !lookup_upd_eq. simpl.
  unfold bind at 1.
  destruct (simulate (parent (actions w !!! self))); simpl.
  - unfold bind at 1. unfold getattr at 1. simpl.
    rewrite !lookup_upd_eq. simpl.
    destruct (bool_decide (children (actions w !!! self) = [])); simpl.
    + unfold bind, getattr, emit. simpl. by rewrite !lookup_upd_eq.
    + unfold trigger_dep.
      by destruct (for_each _ _ _) as [[r w2] t].
  - unfold bind at 1. unfold getattr at 1. simpl.
    rewrite !lookup_upd_eq. simpl.
    destruct (bool_decide (children (actions w !!! self) = [])); simpl.
    + unfold bind, getattr, emit. simpl. by rewrite !lookup_upd_eq.
    + unfold trigger_dep.
      by destruct (for_each _ _ _) as [[r w2] t].
Qed.

Lemma trigger_dep_run (fuel : nat) (self : aid) (dep : Dependency)
    (w : World) :
  trigger_dep clock fuel self dep w
  = if is_ready (actions w) (target dep) then
      if simulate (parent (actions w !!! self)) then
        prepare clock fuel (target dep) w
      else
        let r := prepare clock fuel (target dep) w in
        (result_of r, world_of r,
         notify (edge self (target dep)) EV_TRIGGER_DEP :: trace_of r)
    else (Ok tt, w, []).
Proof.
  unfold trigger_dep, bind, heap, getattr, when, emit, ret. simpl.
  destruct (is_ready (actions w) (target dep)); [|done].
  destruct (simulate (parent (actions w !!! self))); simpl;
    by destruct (prepare clock fuel (target dep) w) as [[r w2] t].
Qed.

Lemma prepare_S (fuel : nat) (self : aid) (w : World) :
  prepare clock (S fuel) self w
  = let deps_status := eval_deps_status (actions w) self in
    if bool_decide (status (actions w !!! self) = NO_STATUS)
       && negb (bool_decide (deps_status = WAITING_STATUS)) then
      if skipped (actions w) self then
        update_status clock fuel self SKIPPED w
      else if bool_decide (deps_status = DEP_ERROR)
              || bool_decide (parents (actions w !!! self) = []) then
        bind (update_status clock fuel self WAITING_STATUS)
             (fun _ => schedule clock true self) w
      else if bool_decide (deps_status = DONE) then
        update_status clock fuel self DONE w
      else
        for_each (search_deps (actions w) self [NO_STATUS])
                 (fun dep => prepare clock fuel (target dep)) w
    else (Ok tt, w, []).
Proof.
  simpl. unfold bind at 1. unfold heap at 1. simpl.
  destruct (_ && _); [|done].
  destruct (skipped _ _).
  { by destruct (update_status _ _ _ _ _) as [[r w2] t]. }
  destruct (_ || _).
  { by destruct (bind _ _ _) as [[r w2] t]. }
  destruct (bool_decide _).
  { by destruct (update_status _ _ _ _ _) as [[r w2] t]. }
  by destruct (for_each _ _ _) as [[r w2] t].
Qed.

Lemma prepare_O (self : aid) (w : World) :
  prepare clock 0 self w = (Raise RecursionError, w, []).
Proof. reflexivity. Qed.

Lemma update_status_O (self : aid) (st : Status) (w : World) :
  update_status clock 0 self st w = (Raise RecursionError, w, []).
Proof. reflexivity. Qed.

End Calls.

#[global] Opaque prepare update_status schedule trigger_dep.

(** ** A generic invariant of [prepare] and [update_status] *)

Section Invariant.

Context `{BaseEntityOps}.
Variable clock : nat -> Time.

(** [I] is a property of the world, [E] a property of the calls made. *)
Variable I : World -> Prop.
Variable E : Event -> Prop.

(** [prepare] writes the status of an Action only when it has none, and
    [schedule] writes [start_time] only when it is unset. *)
Hypothesis I_status : forall w x s,
  status (actions w !!! x) = NO_STATUS -> s ≠ NO_STATUS ->
  I w -> I (upd x (set_status s) w).
Hypothesis I_start : forall w x,
  start_time (actions w !!! x) = None ->
  I w -> I (upd x (set_start_time (Some (clock (ticks w)))) (tick w)).

Hypothesis E_status_changed : forall x, E (notify (entity x) EV_STATUS_CHANGED).
Hypothesis E_complete : forall w x,
  I w -> simulate (parent (actions w !!! x)) = false ->
  E (notify (entity x) EV_COMPLETE).
Hypothesis E_trigger : forall w x y,
  I w -> simulate (parent (actions w !!! x)) = false ->
  E (notify (edge x y) EV_TRIGGER_DEP).
Hypothesis E_service : forall svc s, E (Service_update_status svc s).

Lemma schedule_holds (allow_delay : bool) (x : aid) (w : World) :
  I w ->
  E (perform_action x) -> E (perform_delayed_action x) ->
  holds I E (schedule clock allow_delay x) w.
Proof.
  intros HI Hp Hd. unfold holds. rewrite schedule_run.
  unfold world_of, trace_of. simpl. split.
  - destruct (start_time (actions w !!! x)) eqn:Hs; [done|].
    by apply I_start.
  - apply Forall_cons. split; [|constructor]. by destruct (_ && _).
Qed.

(** Calls of the action manager are made for Actions that had no status
    when [prepare] looked at them. *)
Hypothesis E_perform : forall w x,
  I w -> status (actions w !!! x) = NO_STATUS -> E (perform_action x).
Hypothesis E_delayed : forall w x,
  I w -> status (actions w !!! x) = NO_STATUS -> E (perform_delayed_action x).

Lemma update_status_step (fuel : nat) :
  (forall x w, I w -> holds I E (prepare clock fuel x) w) ->
  forall x s w,
    I w \/ s ∈ action_statuses ->
    I (upd x (set_status s) w) ->
    holds I E (update_status clock (S fuel) x s) w.
Proof.
  intros IHp x s w HI HI1. unfold holds. rewrite update_status_S.
  destruct (bool_decide (s ∈ action_statuses)) eqn:Hs; simpl.
  2:{ apply bool_decide_eq_false in Hs. destruct HI; [by split | done]. }
  assert (simulate (parent (actions (upd x (set_status s) w) !!! x))
          = simulate (parent (actions w !!! x))) as Hsim.
  { by rewrite lookup_upd_eq. }
  assert (Forall E (if simulate (parent (actions w !!! x)) then []
                    else [notify (entity x) EV_COMPLETE])) as Hcomplete.
  { destruct (simulate (parent (actions w !!! x))) eqn:Hp; [constructor|].
    apply Forall_cons. split; [|constructor].
    apply (E_complete (upd x (set_status s) w) x HI1). by rewrite Hsim. }
  destruct (negb (bool_decide (s ∈ [NO_STATUS; WAITING_STATUS]))).
  2:{ split; [done|]. apply Forall_cons. by split. }
  destruct (bool_decide (children (actions w !!! x) = [])).
  { split; [done|]. apply Forall_cons. split; [done|].
    apply Forall_app. split; [done|]. apply Forall_cons. by split. }
  assert (holds I E (for_each (children (actions w !!! x))
                              (trigger_dep clock fuel x))
                (upd x (set_status s) w)) as [HIl HEl].
  { apply holds_for_each; [|done].
    intros dep w' _ HI'. unfold holds. rewrite trigger_dep_run.
    destruct (is_ready (actions w') (target dep)); [|by split].
    destruct (IHp (target dep) w' HI') as [HIp HEp].
    destruct (simulate (parent (actions w' !!! x))) eqn:Hs'; [by split|].
    split; [done|]. apply Forall_cons. split; [|done].
    by apply (E_trigger w' x). }
  split; [done|]. unfold trace_of at 1. simpl.
  apply Forall_cons. split; [done|]. apply Forall_app. by split.
Qed.

Lemma traversal_holds (fuel : nat) :
  (forall x w, I w -> holds I E (prepare clock fuel x) w) /\
  (forall x s w,
      I w -> I (upd x (set_status s) w) ->
      holds I E (update_status clock fuel x s) w).
Proof.
  induction fuel as [|fuel [IHp IHu]].
  { split; intros; by split. }
  split.
  2:{ intros x s w HI HI1. apply update_status_step; auto. }
  intros x w HI. unfold holds. rewrite prepare_S. cbv zeta.
  destruct (bool_decide (status (actions w !!! x) = NO_STATUS)) eqn:Hst;
    [|by split].
  apply bool_decide_eq_true in Hst.
  destruct (negb (bool_decide (eval_deps_status (actions w) x = WAITING_STATUS)));
    [|by split].
  simpl.
  destruct (skipped (actions w) x).
  { apply IHu; [done|]. by apply I_status. }
  destruct (_ || _).
  { apply holds_bind.
    - apply IHu; [done|]. by apply I_status.
    - intros _ _. apply schedule_holds.
      + apply IHu; [done|]. by apply I_status.
      + by apply (E_perform w).
      + by apply (E_delayed w). }
  destruct (bool_decide _).
  { apply IHu; [done|]. by apply I_status. }
  apply holds_for_each; [|done].
  intros dep w' _ HI'. by apply IHp.
Qed.

Lemma prepare_holds (fuel : nat) (x : aid) (w : World) :
  I w -> holds I E (prepare clock fuel x) w.
Proof. apply traversal_holds. Qed.

(** A status written from outside the traversal: only the world after the
    write has to satisfy [I]. *)
Lemma update_status_holds (fuel : nat) (x : aid) (s : Status) (w : World) :
  s ∈ action_statuses ->
  I (upd x (set_status s) w) ->
  holds I E (update_status clock (S fuel) x s) w.
Proof.
  intros Hs HI1. apply update_status_step; auto.
  intros y w' HI'. by apply prepare_holds.
Qed.

End Invariant.

(** ** The handlers *)

Section Handlers.

Context `{BaseEntityOps}.
Variable clock : nat -> Time.

Lemma closed_lookup (self : aid) (wk : Worker) (w : World) :
  actions (closed clock self wk w) !!! self
  = set_worker (Some wk)
      (set_stop_time (Some (clock (ticks w))) (actions w !!! self)).
Proof. unfold closed. by rewrite !lookup_upd_eq. Qed.

Lemma closed_lookup_ne (self x : aid) (wk : Worker) (w : World) :
  self ≠ x -> actions (closed clock self wk w) !!! x = actions w !!! x.
Proof. intros. unfold closed. by rewrite !lookup_upd_ne. Qed.

Lemma closed_ticks (self : aid) (wk : Worker) (w : World) :
  ticks (closed clock self wk w) = S (ticks w).
Proof. reflexivity. Qed.

(** A field that [ev_close] does not assign before counting. *)
Lemma closed_field {A} (g : Action -> A) (self x : aid) (wk : Worker)
    (w : World) :
  (forall t a, g (set_stop_time t a) = g a) ->
  (forall k a, g (set_worker k a) = g a) ->
  g (actions (closed clock self wk w) !!! x) = g (actions w !!! x).
Proof.
  intros Hstop Hwk. destruct (decide (self = x)) as [->|Hne].
  - by rewrite closed_lookup, Hwk, Hstop.
  - by rewrite closed_lookup_ne.
Qed.

Lemma ev_close_run (fuel : nat) (self : aid) (wk : Worker) (w : World) :
  ev_close clock fuel self wk w
  = let w1 := closed clock self wk w in
    let a := actions w1 !!! self in
    if (truthy (nb_errors a) || truthy (nb_timeout a)) && (0 <? get_retry a)
    then
      match set_retry (get_retry a - 1) a with
      | Ok a' =>
          let r := schedule clock true self (upd self (fun _ => a') w1) in
          (result_of r, world_of r, remove_task self :: trace_of r)
      | Raise e => (Raise e, w1, [remove_task self])
      end
    else
      let st :=
        if (errors a <? nb_timeout a) && (nb_errors a =? 0) then TIMEOUT
        else if errors a <? nb_errors a + nb_timeout a then ERROR
        else DONE in
      let r := update_status clock fuel self st w1 in
      (result_of r, world_of r, remove_task self :: trace_of r).
Proof.
  unfold ev_close.
  unfold bind at 1. unfold now at 1. simpl.
  unfold bind at 1. unfold setattr at 1. simpl.
  unfold bind at 1. unfold emit at 1. simpl.
  unfold bind at 1. unfold setattr at 1. simpl.
  fold (closed clock self wk w).
  set (w1 := closed clock self wk w).
  unfold bind at 1. unfold getattr at 1. simpl.
  unfold bind at 1. unfold getattr at 1. simpl.
  unfold bind at 1. unfold getattr at 1. simpl.
  set (a := actions w1 !!! self).
  destruct ((truthy (nb_errors a) || truthy (nb_timeout a))
            && (0 <? get_retry a)).
  - unfold bind at 1. unfold getattr at 1. simpl. fold a.
    unfold bind at 1. unfold setprop at 1. fold a.
    destruct (set_retry (get_retry a - 1) a) as [a'|e]; [|done].
    by destruct (schedule clock true self _) as [[r w2] t].
  - unfold bind at 1. unfold getattr at 1. simpl. fold a.
    destruct ((errors a <? nb_timeout a) && (nb_errors a =? 0)).
    { by destruct (update_status _ _ _ _ _) as [[r w2] t]. }
    destruct (errors a <? nb_errors a + nb_timeout a);
      by destruct (update_status _ _ _ _ _) as [[r w2] t].
Qed.

Lemma ev_start_run (self : aid) (w : World) :
  ev_start self w
  = (Ok tt, w,
     if simulated w self then [] else [notify (entity self) EV_STARTED]).
Proof.
  unfold ev_start, simulated, bind, getattr, when, emit, ret. simpl.
  by destruct (simulate _).
Qed.

Lemma ev_timer_run (self : aid) (w : World) :
  ev_timer clock self w
  = if simulated w self then
      (Ok tt, w,
       [Service_update_status (parent (actions w !!! self))
          (Service_eval_deps_status (actions w) (parent (actions w !!! self)))])
    else schedule clock false self w.
Proof.
  unfold ev_timer, simulated, bind, getattr, heap, emit. simpl.
  destruct (simulate _); [done|].
  by destruct (schedule clock false self w) as [[r w2] t].
Qed.

(** *** Invariants kept by the handlers *)

Variable I : World -> Prop.
Variable E : Event -> Prop.

Hypothesis I_any_status : forall w x s, I w -> I (upd x (set_status s) w).
Hypothesis I_start : forall w x,
  start_time (actions w !!! x) = None ->
  I w -> I (upd x (set_start_time (Some (clock (ticks w)))) (tick w)).
Hypothesis I_closed : forall w x wk, I w -> I (closed clock x wk w).
Hypothesis I_retry : forall w x r a',
  set_retry r (actions w !!! x) = Ok a' -> I w -> I (upd x (fun _ => a') w).

Hypothesis E_status_changed : forall x, E (notify (entity x) EV_STATUS_CHANGED).
Hypothesis E_started : forall w x,
  I w -> simulated w x = false -> E (notify (entity x) EV_STARTED).
Hypothesis E_complete : forall w x,
  I w -> simulated w x = false -> E (notify (entity x) EV_COMPLETE).
Hypothesis E_trigger : forall w x y,
  I w -> simulated w x = false -> E (notify (edge x y) EV_TRIGGER_DEP).
Hypothesis E_service : forall svc s, E (Service_update_status svc s).
Hypothesis E_perform : forall x, E (perform_action x).
Hypothesis E_delayed : forall x, E (perform_delayed_action x).
Hypothesis E_remove : forall x, E (remove_task x).

Lemma handler_prepare_holds (fuel : nat) (x : aid) (w : World) :
  I w -> holds I E (prepare clock fuel x) w.
Proof. apply prepare_holds; auto. Qed.

Lemma handler_update_status_holds (fuel : nat) (x : aid) (s : Status)
    (w : World) :
  I w -> holds I E (update_status clock fuel x s) w.
Proof.
  intros HI. apply traversal_holds; auto.
Qed.

Lemma ev_close_holds (fuel : nat) (x : aid) (wk : Worker) (w : World) :
  I w -> holds I E (ev_close clock fuel x wk) w.
Proof.
  intros HI. unfold holds. rewrite ev_close_run. cbv zeta.
  pose proof (I_closed w x wk HI) as HI1.
  destruct (_ && _).
  - destruct (set_retry _ _) as [a'|e] eqn:Hr.
    + destruct (schedule_holds clock I E I_start true x
                  (upd x (fun _ => a') (closed clock x wk w)))
        as [HI2 HE2]; auto.
      { by apply (I_retry _ _ _ _ Hr). }
      split; [done|]. apply Forall_cons. by split.
    + split; [done|]. apply Forall_cons. by split.
  - destruct (handler_update_status_holds fuel x
      (if (errors (actions (closed clock x wk w) !!! x)
             <? nb_timeout (actions (closed clock x wk w) !!! x))
          && (nb_errors (actions (closed clock x wk w) !!! x) =? 0)
       then TIMEOUT
       else if errors (actions (closed clock x wk w) !!! x)
                 <? nb_errors (actions (closed clock x wk w) !!! x)
                    + nb_timeout (actions (closed clock x wk w) !!! x)
            then ERROR else DONE)
      (closed clock x wk w) HI1) as [HI2 HE2].
    split; [done|]. apply Forall_cons. by split.
Qed.

Lemma handle_holds (fuel : nat) (e : handler_event) (w : World) :
  I w -> holds I E (handle clock fuel e) w.
Proof.
  intros HI. destruct e as [a|a|a wk]; simpl.
  - unfold holds. rewrite ev_start_run. split; [done|].
    destruct (simulated w a) eqn:Hs; [constructor|].
    apply Forall_cons. split; [|constructor]. by apply (E_started w).
  - unfold holds. rewrite ev_timer_run.
    destruct (simulated w a).
    + split; [done|]. apply Forall_cons. by split.
    + apply schedule_holds; auto.
  - by apply ev_close_holds.
Qed.

Lemma run_holds (fuel : nat) (evs : list handler_event) (w : World) :
  I w -> holds I E (run clock fuel evs) w.
Proof.
  apply holds_for_each. intros e w' _. apply handle_holds.
Qed.

End Handlers.

(** ** Properties of the traversal *)

Section Traversal.

Context `{BaseEntityOps}.
Variable clock : nat -> Time.

(** An Action that has a status keeps it while other Actions are prepared,
    and is not handed to the action manager meanwhile. *)
Lemma prepare_keeps_status (fuel : nat) (x a : aid) (s : Status) (w : World) :
  s ≠ NO_STATUS ->
  status (actions w !!! a) = s ->
  holds (fun w' => status (actions w' !!! a) = s)
        (fun e => ¬ schedules a e) (prepare clock fuel x) w.
Proof.
  intros Hs Ha. apply prepare_holds; try done.
  - intros w' y s' Hy _ Hw'. rewrite lookup_upd_ne; [done|]. congruence.
  - intros w' y _ Hw'. by rewrite field_upd.
  - intros y [|]; discriminate.
  - intros w' y _ _ [|]; discriminate.
  - intros w' y z _ _ [|]; discriminate.
  - intros svc s' [|]; discriminate.
  - intros w' y Hw' Hy [[= ->]|]; [congruence | discriminate].
  - intros w' y Hw' Hy [|[= ->]]; [discriminate | congruence].
Qed.

Lemma update_status_sets_status (fuel : nat) (x : aid) (s : Status)
    (w : World) :
  s ∈ action_statuses ->
  holds (fun w' => status (actions w' !!! x) = s)
        (fun e => ¬ schedules x e) (update_status clock (S fuel) x s) w.
Proof.
  intros Hs. destruct (decide (s = NO_STATUS)) as [->|Hne].
  { unfold holds. rewrite update_status_S. simpl. split.
    - unfold world_of. simpl. by rewrite lookup_upd_eq.
    - apply Forall_cons. split; [|constructor]. intros [|]; discriminate. }
  apply update_status_holds; try done.
  - intros w' y s' Hy _ Hw'. rewrite lookup_upd_ne; [done|]. congruence.
  - intros w' y _ Hw'. by rewrite field_upd.
  - intros y [|]; discriminate.
  - intros w' y _ _ [|]; discriminate.
  - intros w' y z _ _ [|]; discriminate.
  - intros svc s' [|]; discriminate.
  - intros w' y Hw' Hy [[= ->]|]; [congruence | discriminate].
  - intros w' y Hw' Hy [|[= ->]]; [discriminate | congruence].
  - by rewrite lookup_upd_eq.
Qed.

Lemma update_status_final_status (fuel : nat) (x : aid) (s : Status)
    (w : World) :
  s ∈ action_statuses ->
  status (actions (world_of (update_status clock (S fuel) x s w)) !!! x) = s.
Proof. intros Hs. by destruct (update_status_sets_status fuel x s w Hs). Qed.

Lemma update_status_not_scheduled (fuel : nat) (x : aid) (s : Status)
    (w : World) :
  s ∈ action_statuses ->
  Forall (fun e => ¬ schedules x e)
         (trace_of (update_status clock (S fuel) x s w)).
Proof. intros Hs. by destruct (update_status_sets_status fuel x s w Hs). Qed.

Lemma prepare_noop (fuel : nat) (self : aid) (w : World) :
  status (actions w !!! self) ≠ NO_STATUS
  \/ eval_deps_status (actions w) self = WAITING_STATUS ->
  prepare clock (S fuel) self w = (Ok tt, w, []).
Proof.
  intros Hg. rewrite prepare_S. cbv zeta.
  destruct Hg as [Hs|Hd].
  - by rewrite bool_decide_eq_false_2.
  - rewrite (bool_decide_eq_true_2 _ Hd). simpl. by rewrite andb_false_r.
Qed.

Lemma elem_of_search_deps (h : gmap aid Action) (self : aid)
    (symbols : list Status) (dep : Dependency) :
  dep ∈ search_deps h self symbols
  <-> dep ∈ parents (h !!! self) /\ status (h !!! target dep) ∈ symbols.
Proof. unfold search_deps. rewrite list_elem_of_filter. tauto. Qed.

(** C6: [prepare()] returns at once, with the world untouched and no call
    made, when the Action already has a status or when its dependencies
    are [WAITING_STATUS]; whenever a call of [prepare()] has left the
    Action with a status, a second call is this no-op, so that two calls
    in a row do what the first one did; and [prepare()] does leave a
    status in each of the branches that set one. *)
Theorem prepare_guarded_noop_idempotent (fuel fuel' : nat) (self : aid)
    (w : World) :
  (status (actions w !!! self) ≠ NO_STATUS
   \/ eval_deps_status (actions w) self = WAITING_STATUS ->
   prepare clock (S fuel) self w = (Ok tt, w, [])) /\
  (status (actions (world_of (prepare clock fuel self w)) !!! self)
     ≠ NO_STATUS ->
   prepare clock (S fuel') self (world_of (prepare clock fuel self w))
   = (Ok tt, world_of (prepare clock fuel self w), []) /\
   bind (prepare clock fuel self) (fun _ => prepare clock (S fuel') self) w
   = prepare clock fuel self w) /\
  (status (actions w !!! self) = NO_STATUS ->
   eval_deps_status (actions w) self ≠ WAITING_STATUS ->
   skipped (actions w) self = true
   \/ eval_deps_status (actions w) self = DEP_ERROR
   \/ parents (actions w !!! self) = []
   \/ eval_deps_status (actions w) self = DONE ->
   status (actions (world_of (prepare clock (S (S fuel)) self w)) !!! self)
     ≠ NO_STATUS).
Proof.
  split; [apply prepare_noop|]. split.
  - intros Hs.
    assert (prepare clock (S fuel') self (world_of (prepare clock fuel self w))
            = (Ok tt, world_of (prepare clock fuel self w), [])) as Hsecond.
    { apply prepare_noop. by left. }
    split; [exact Hsecond|].
    rewrite bind_run, Hsecond.
    unfold result_of, world_of, trace_of. simpl.
    destruct (prepare clock fuel self w) as [[[[]|e] w1] t1]; simpl;
      [by rewrite app_nil_r | done].
  - intros Hs Hd Hbranch. rewrite prepare_S. cbv zeta.
    rewrite (bool_decide_eq_true_2 _ Hs), (bool_decide_eq_false_2 _ Hd).
    simpl.
    destruct (skipped (actions w) self).
    { rewrite update_status_final_status; [done | status_mem]. }
    destruct (_ || _) eqn:Hor.
    { rewrite bind_run, update_status_S. simpl.
      unfold result_of, world_of, trace_of. simpl.
      rewrite schedule_run. simpl.
      destruct (start_time _); rewrite ?lookup_upd_eq; simpl;
        by rewrite ?lookup_upd_eq. }
    apply orb_false_iff in Hor as [Hde Hp].
    apply bool_decide_eq_false in Hde, Hp.
    destruct Hbranch as [?|[?|[?|Hdone]]]; try done.
    rewrite (bool_decide_eq_true_2 _ Hdone).
    rewrite update_status_final_status; [done | status_mem].
Qed.

(** C7, as the code has it: an Action without a status, whose dependencies
    are not waiting and which is not skipped, is put in [WAITING_STATUS]
    and scheduled when [eval_deps_status()] is [DEP_ERROR] or when it has
    no parent at all; otherwise it is set [DONE], and not scheduled, when
    [eval_deps_status()] is [DONE]; otherwise [prepare()] is called on
    each parent that is still in [NO_STATUS]. *)
Theorem prepare_dispatch (fuel : nat) (self : aid) (w : World) :
  status (actions w !!! self) = NO_STATUS ->
  eval_deps_status (actions w) self ≠ WAITING_STATUS ->
  skipped (actions w) self = false ->
  (eval_deps_status (actions w) self = DEP_ERROR
   \/ parents (actions w !!! self) = [] ->
   prepare clock (S (S fuel)) self w
   = (Ok tt,
      world_of (schedule clock true self
                  (upd self (set_status WAITING_STATUS) w)),
      [notify (entity self) EV_STATUS_CHANGED;
       if 0 <? delay (actions w !!! self) then perform_delayed_action self
       else perform_action self]) /\
   status (actions (world_of (prepare clock (S (S fuel)) self w)) !!! self)
   = WAITING_STATUS) /\
  (eval_deps_status (actions w) self = DONE ->
   parents (actions w !!! self) ≠ [] ->
   prepare clock (S (S fuel)) self w
   = update_status clock (S fuel) self DONE w /\
   status (actions (world_of (prepare clock (S (S fuel)) self w)) !!! self)
   = DONE /\
   Forall (fun e => ¬ schedules self e)
          (trace_of (prepare clock (S (S fuel)) self w))) /\
  (eval_deps_status (actions w) self ≠ DEP_ERROR ->
   eval_deps_status (actions w) self ≠ DONE ->
   parents (actions w !!! self) ≠ [] ->
   prepare clock (S fuel) self w
   = for_each (search_deps (actions w) self [NO_STATUS])
              (fun dep => prepare clock fuel (target dep)) w /\
   forall dep,
     dep ∈ search_deps (actions w) self [NO_STATUS]
     <-> dep ∈ parents (actions w !!! self)
         /\ status (actions w !!! target dep) = NO_STATUS).
Proof.
  intros Hs Hd Hsk.
  assert (forall fuel0,
            prepare clock (S fuel0) self w
            = if bool_decide (eval_deps_status (actions w) self = DEP_ERROR)
                 || bool_decide (parents (actions w !!! self) = [])
              then bind (update_status clock fuel0 self WAITING_STATUS)
                        (fun _ => schedule clock true self) w
              else if bool_decide (eval_deps_status (actions w) self = DONE)
              then update_status clock fuel0 self DONE w
              else for_each (search_deps (actions w) self [NO_STATUS])
                     (fun dep => prepare clock fuel0 (target dep)) w)
    as Hprep.
  { intros fuel0. rewrite prepare_S. cbv zeta.
    by rewrite (bool_decide_eq_true_2 _ Hs), (bool_decide_eq_false_2 _ Hd),
      Hsk. }
  split; [|split].
  - intros Hrow.
    assert (bool_decide (eval_deps_status (actions w) self = DEP_ERROR)
            || bool_decide (parents (actions w !!! self) = []) = true) as Hb.
    { apply orb_true_iff.
      destruct Hrow; [left | right]; by apply bool_decide_eq_true. }
    assert (prepare clock (S (S fuel)) self w
            = (Ok tt,
               world_of (schedule clock true self
                           (upd self (set_status WAITING_STATUS) w)),
               [notify (entity self) EV_STATUS_CHANGED;
                if 0 <? delay (actions w !!! self)
                then perform_delayed_action self
                else perform_action self])) as Heq.
    { rewrite Hprep, Hb, bind_run, update_status_S. simpl.
      unfold result_of, world_of, trace_of. simpl.
      rewrite schedule_run. simpl.
      rewrite lookup_upd_eq. simpl. by rewrite andb_true_r. }
    split; [exact Heq|].
    rewrite Heq. unfold world_of. simpl. rewrite schedule_run. simpl.
    destruct (start_time _); rewrite ?lookup_upd_eq; simpl;
      by rewrite ?lookup_upd_eq.
  - intros Hdone Hps.
    assert (prepare clock (S (S fuel)) self w
            = update_status clock (S fuel) self DONE w) as Heq.
    { rewrite Hprep, Hdone. simpl.
      by rewrite (bool_decide_eq_false_2 _ Hps). }
    split; [exact Heq|]. rewrite Heq. split.
    + apply update_status_final_status. status_mem.
    + apply update_status_not_scheduled. status_mem.
  - intros Hne Hnd Hps. split.
    + rewrite Hprep.
      by rewrite (bool_decide_eq_false_2 _ Hne),
        (bool_decide_eq_false_2 _ Hnd), (bool_decide_eq_false_2 _ Hps).
    + intros dep. rewrite elem_of_search_deps, list_elem_of_singleton.
      tauto.
Qed.

(** C8, as the code has it: [schedule(allow_delay)] records [start_time]
    when it is unset and leaves it alone otherwise; it then hands the
    Action to [perform_delayed_action] when [delay > 0] and [allow_delay]
    holds, and to [perform_action] in every other case.  When the timer
    fires, [ev_timer] re-enters [schedule(allow_delay=False)] unless the
    parent service simulates; in simulate mode it calls the parent's
    [update_status] with the parent's [eval_deps_status()] and schedules
    nothing. *)
Theorem schedule_dispatch (allow_delay : bool) (self : aid) (w : World) :
  (exists w' e,
      schedule clock allow_delay self w = (Ok tt, w', [e]) /\
      (start_time (actions w !!! self) = None ->
       w' = upd self (set_start_time (Some (clock (ticks w)))) (tick w)) /\
      (start_time (actions w !!! self) ≠ None -> w' = w) /\
      (0 < delay (actions w !!! self) /\ allow_delay = true ->
       e = perform_delayed_action self) /\
      (¬ (0 < delay (actions w !!! self) /\ allow_delay = true) ->
       e = perform_action self)) /\
  (simulated w self = false ->
   ev_timer clock self w = schedule clock false self w /\
   exists w', schedule clock false self w
              = (Ok tt, w', [perform_action self])) /\
  (simulated w self = true ->
   ev_timer clock self w
   = (Ok tt, w,
      [Service_update_status (parent (actions w !!! self))
         (Service_eval_deps_status (actions w)
            (parent (actions w !!! self)))])).
Proof.
  split; [|split].
  - eexists _, _. split; [apply schedule_run|]. repeat split.
    + by intros ->.
    + intros Hs. by destruct (start_time _).
    + intros [Hd ->]. by rewrite (proj2 (Z.ltb_lt _ _) Hd).
    + intros Hn. destruct (Z.ltb_spec 0 (delay (actions w !!! self)));
        destruct allow_delay; simpl; try done.
      exfalso. by apply Hn.
  - intros Hs. rewrite ev_timer_run, Hs. split; [done|].
    rewrite schedule_run. rewrite andb_false_r. eauto.
  - intros Hs. by rewrite ev_timer_run, Hs.
Qed.

End Traversal.

(** ** Properties of the handlers *)

Section Completion.

Context `{BaseEntityOps}.
Variable clock : nat -> Time.

Lemma truthy_counts (errs timeouts : Z) :
  0 <= errs -> 0 <= timeouts ->
  truthy errs || truthy timeouts = true <-> 0 < errs \/ 0 < timeouts.
Proof.
  intros He Ht. unfold truthy. rewrite orb_true_iff, !negb_true_iff.
  rewrite !Z.eqb_neq. lia.
Qed.

(** The branch taken by [ev_close] is the row chosen by the table. *)
Lemma ev_close_branch (a : Action) :
  decision_table (nb_errors a) (nb_timeout a) (get_retry a) (errors a)
  = if (truthy (nb_errors a) || truthy (nb_timeout a)) && (0 <? get_retry a)
    then Retry
    else Final
           (if (errors a <? nb_timeout a) && (nb_errors a =? 0) then TIMEOUT
            else if errors a <? nb_errors a + nb_timeout a then ERROR
            else DONE).
Proof.
  pose proof (nb_errors_nonneg a) as He.
  pose proof (nb_timeout_nonneg a) as Ht.
  pose proof (truthy_counts _ _ He Ht) as Htr.
  unfold decision_table.
  destruct (truthy (nb_errors a) || truthy (nb_timeout a)) eqn:Hb; simpl.
  - destruct (Z.ltb_spec 0 (get_retry a)).
    + rewrite decide_True; [done|]. split; [by apply Htr | done].
    + rewrite decide_False by lia.
      destruct (Z.ltb_spec (errors a) (nb_timeout a));
        destruct (Z.eqb_spec (nb_errors a) 0); simpl;
        repeat case_decide; try done; try lia;
        destruct (Z.ltb_spec (errors a) (nb_errors a + nb_timeout a));
        try done; lia.
  - rewrite decide_False.
    2:{ intros [Hc _]. apply Htr in Hc. congruence. }
    destruct (Z.ltb_spec (errors a) (nb_timeout a));
      destruct (Z.eqb_spec (nb_errors a) 0); simpl;
      repeat case_decide; try done; try lia;
      destruct (Z.ltb_spec (errors a) (nb_errors a + nb_timeout a));
      try done; lia.
Qed.

(** C1: when the worker completes, [ev_close] follows the decision table
    on the error count, the timeout count, the retry counter and the
    errors tolerance.  On the retry row (for an Action that respects
    "retry > 0 requires delay > 0") the counter goes down by one, the
    Action is handed again to the action manager through its delay, and
    the status is not updated: no notification is sent and the status is
    the one before.  On the other rows the handler is
    [update_status(TIMEOUT)], [update_status(ERROR)] or
    [update_status(DONE)], and the Action ends with that status. *)
Theorem ev_close_decision_table (fuel : nat) (self : aid) (wk : Worker)
    (w : World) :
  let a := actions (closed clock self wk w) !!! self in
  (0 < get_retry a -> 0 < delay a) ->
  match decision_table (nb_errors a) (nb_timeout a) (get_retry a) (errors a)
  with
  | Retry =>
      exists w',
        ev_close clock (S fuel) self wk w
        = (Ok tt, w', [remove_task self; perform_delayed_action self]) /\
        get_retry (actions w' !!! self) = get_retry a - 1 /\
        status (actions w' !!! self) = status (actions w !!! self)
  | Final st =>
      ev_close clock (S fuel) self wk w
      = (let r := update_status clock (S fuel) self st
                    (closed clock self wk w) in
         (result_of r, world_of r, remove_task self :: trace_of r)) /\
      status (actions (world_of (ev_close clock (S fuel) self wk w)) !!! self)
      = st /\
      exists t,
        trace_of (ev_close clock (S fuel) self wk w)
        = remove_task self :: notify (entity self) EV_STATUS_CHANGED :: t
  end.
Proof.
  intros a Hinv. rewrite ev_close_branch, ev_close_run. cbv zeta. fold a.
  destruct ((truthy (nb_errors a) || truthy (nb_timeout a))
            && (0 <? get_retry a)) eqn:Hrow.
  - apply andb_true_iff in Hrow as [_ Hr]. apply Z.ltb_lt in Hr.
    specialize (Hinv Hr).
    destruct (set_retry_succeeds (get_retry a - 1) a Hinv ltac:(lia))
      as (a' & Ha').
    rewrite Ha'. rewrite schedule_run.
    apply set_retry_Ok in Ha' as (_ & _ & Hget & _ & Hd & Hst & _).
    rewrite lookup_upd_eq, Hd. rewrite (proj2 (Z.ltb_lt _ _) Hinv). simpl.
    eexists. split; [reflexivity|].
    unfold world_of. simpl.
    assert (forall w2 : World,
               actions w2 !!! self = a' ->
               get_retry (actions w2 !!! self) = get_retry a - 1 /\
               status (actions w2 !!! self) = status (actions w !!! self))
      as Hfin.
    { intros w2 ->. split; [done|]. rewrite Hst. unfold a.
      by rewrite closed_field. }
    destruct (start_time a') eqn:Hs'.
    + apply Hfin. by rewrite lookup_upd_eq.
    + rewrite lookup_upd_eq. simpl. rewrite lookup_upd_eq.
      split; [exact Hget|]. rewrite Hst. unfold a. by rewrite closed_field.
  - set (st := if (errors a <? nb_timeout a) && (nb_errors a =? 0)
               then TIMEOUT
               else if errors a <? nb_errors a + nb_timeout a then ERROR
               else DONE).
    assert (st ∈ action_statuses) as Hst.
    { unfold st. destruct ((errors a <? nb_timeout a) && (nb_errors a =? 0));
        [status_mem|].
      destruct (errors a <? nb_errors a + nb_timeout a); status_mem. }
    split; [done|].
    destruct (update_status_sets_status clock fuel self st
                (closed clock self wk w) Hst) as [Hfinal _].
    split; [exact Hfinal|].
    unfold trace_of at 1. simpl. rewrite update_status_S.
    rewrite (bool_decide_eq_true_2 _ Hst). simpl.
    assert (st ∉ [NO_STATUS; WAITING_STATUS]) as Hterm.
    { unfold st. destruct ((errors a <? nb_timeout a) && (nb_errors a =? 0));
        [status_mem|].
      destruct (errors a <? nb_errors a + nb_timeout a); status_mem. }
    rewrite (bool_decide_eq_false_2 _ Hterm). simpl.
    destruct (bool_decide _); unfold trace_of; simpl; eauto.
Qed.

(** Parents services are never reassigned, and the notifications sent
    respect the simulate flag of the sender. *)
Lemma run_respects_simulate (fuel : nat) (evs : list handler_event)
    (w : World) :
  holds (fun w' => forall x, parent (actions w' !!! x) = parent (actions w !!! x))
        (respects_simulate w) (run clock fuel evs) w.
Proof.
  apply run_holds; try done.
  - intros w' x s Hw' y. by rewrite field_upd.
  - intros w' x _ Hw' y. by rewrite field_upd.
  - intros w' x wk Hw' y. by rewrite closed_field.
  - intros w' x r a' Ha' Hw' y. rewrite lookup_upd.
    destruct (decide (x = y)) as [->|]; [|done].
    apply set_retry_Ok in Ha'. rewrite <- Hw'. tauto.
  - intros w' x Hw'. unfold simulated, respects_simulate. by rewrite Hw'.
  - intros w' x Hw'. unfold simulated, respects_simulate. by rewrite Hw'.
  - intros w' x y Hw'. unfold simulated, respects_simulate. by rewrite Hw'.
Qed.

Lemma update_status_respects_simulate (fuel : nat) (x : aid) (s : Status)
    (w : World) :
  Forall (respects_simulate w) (trace_of (update_status clock fuel x s w)).
Proof.
  eapply (handler_update_status_holds clock
            (fun w' => forall y, parent (actions w' !!! y)
                                 = parent (actions w !!! y))
            (respects_simulate w)); try done.
  - intros w' y s' Hw' z. by rewrite field_upd.
  - intros w' y _ Hw' z. by rewrite field_upd.
  - intros w' y Hw'. unfold simulated, respects_simulate. by rewrite Hw'.
  - intros w' y z Hw'. unfold simulated, respects_simulate. by rewrite Hw'.
Qed.

(** C5: while the parent service of an Action simulates, no run of the
    handlers notifies [EV_STARTED] or [EV_COMPLETE] for it, and [ev_start]
    notifies nothing; [update_status] with an accepted status still
    notifies [EV_STATUS_CHANGED] first; and outside simulate mode,
    [update_status] with a terminal status notifies [EV_COMPLETE] right
    after it. *)
Theorem simulate_suppresses_started_complete (fuel : nat) (self : aid)
    (w : World) :
  (simulated w self = true ->
   ev_start self w = (Ok tt, w, []) /\
   (forall evs,
       (notify (entity self) EV_STARTED ∉ trace_of (run clock fuel evs w)) /\
       (notify (entity self) EV_COMPLETE
          ∉ trace_of (run clock fuel evs w))) /\
   (forall x s,
       notify (entity self) EV_COMPLETE
         ∉ trace_of (update_status clock fuel x s w))) /\
  (forall s,
      s ∈ action_statuses ->
      exists t,
        trace_of (update_status clock (S fuel) self s w)
        = notify (entity self) EV_STATUS_CHANGED :: t) /\
  (forall s,
      simulated w self = false ->
      s ∈ action_statuses -> s ∉ [NO_STATUS; WAITING_STATUS] ->
      exists t,
        trace_of (update_status clock (S fuel) self s w)
        = notify (entity self) EV_STATUS_CHANGED
            :: notify (entity self) EV_COMPLETE :: t).
Proof.
  split; [|split].
  - intros Hsim. split; [|split].
    + by rewrite ev_start_run, Hsim.
    + intros evs.
      destruct (run_respects_simulate fuel evs w) as [_ Htr].
      rewrite Forall_forall in Htr.
      split; intros Hin; apply Htr in Hin; simpl in Hin; congruence.
    + intros x s Hin.
      pose proof (update_status_respects_simulate fuel x s w) as Htr.
      rewrite Forall_forall in Htr.
      apply Htr in Hin. simpl in Hin. congruence.
  - intros s Hs. rewrite update_status_S.
    rewrite (bool_decide_eq_true_2 _ Hs). simpl.
    destruct (negb _); [|unfold trace_of; simpl; eauto].
    destruct (bool_decide _); unfold trace_of; simpl; eauto.
  - intros s Hsim Hs Hterm. rewrite update_status_S.
    rewrite (bool_decide_eq_true_2 _ Hs). simpl.
    rewrite (bool_decide_eq_false_2 _ Hterm). simpl.
    unfold simulated in Hsim. rewrite Hsim.
    destruct (bool_decide _); unfold trace_of; simpl; eauto.
Qed.

(** C10: in simulate mode, [update_status] with a terminal status sends no
    [EV_TRIGGER_DEP] for the Action, yet runs [prepare()] on every child
    that is ready when its turn comes; and an Action without children
    passes its status to [update_status] of the parent service, in
    simulate mode or not. *)
Theorem simulate_suppresses_trigger_dep (fuel : nat) (self : aid)
    (s : Status) (w : World) :
  s ∈ action_statuses -> s ∉ [NO_STATUS; WAITING_STATUS] ->
  (simulated w self = true ->
   (forall y, notify (edge self y) EV_TRIGGER_DEP
                ∉ trace_of (update_status clock (S fuel) self s w)) /\
   (children (actions w !!! self) ≠ [] ->
    let r := for_each (children (actions w !!! self))
                      (trigger_dep clock fuel self)
                      (upd self (set_status s) w) in
    update_status clock (S fuel) self s w
    = (result_of r, world_of r,
       notify (entity self) EV_STATUS_CHANGED :: trace_of r)) /\
   (forall dep w',
       simulated w' self = true ->
       is_ready (actions w') (target dep) = true ->
       trigger_dep clock fuel self dep w'
       = prepare clock fuel (target dep) w')) /\
  (children (actions w !!! self) = [] ->
   update_status clock (S fuel) self s w
   = (Ok tt, upd self (set_status s) w,
      notify (entity self) EV_STATUS_CHANGED
        :: (if simulated w self then []
            else [notify (entity self) EV_COMPLETE])
        ++ [Service_update_status (parent (actions w !!! self)) s])).
Proof.
  intros Hs Hterm. split.
  - intros Hsim. split; [|split].
    + intros y Hin.
      pose proof (update_status_respects_simulate (S fuel) self s w) as Htr.
      rewrite Forall_forall in Htr.
      apply Htr in Hin. simpl in Hin. congruence.
    + intros Hch. cbv zeta. rewrite update_status_S.
      rewrite (bool_decide_eq_true_2 _ Hs). simpl.
      rewrite (bool_decide_eq_false_2 _ Hterm). simpl.
      rewrite (bool_decide_eq_false_2 _ Hch).
      unfold simulated in Hsim. by rewrite Hsim.
    + intros dep w' Hsim' Hready. rewrite trigger_dep_run, Hready.
      unfold simulated in Hsim'. by rewrite Hsim'.
  - intros Hch. rewrite update_status_S.
    rewrite (bool_decide_eq_true_2 _ Hs). simpl.
    rewrite (bool_decide_eq_false_2 _ Hterm). simpl.
    by rewrite (bool_decide_eq_true_2 _ Hch).
Qed.

End Completion.

(** ** Timing *)

Section Timing.

Context `{BaseEntityOps}.
Variable clock : nat -> Time.

(** [stop_time] is written by [ev_close] only. *)
Lemma ev_close_stop_time (fuel : nat) (a : aid) (wk : Worker) (w : World) :
  stop_time (actions (world_of (ev_close clock fuel a wk w)) !!! a)
  = Some (clock (ticks w)).
Proof.
  pose (I := fun w' : World =>
               stop_time (actions w' !!! a) = Some (clock (ticks w))).
  assert (I (closed clock a wk w)) as HI1.
  { unfold I. by rewrite closed_lookup. }
  assert (forall w' x, start_time (actions w' !!! x) = None -> I w' ->
            I (upd x (set_start_time (Some (clock (ticks w')))) (tick w')))
    as I_start.
  { intros w' x _ Hw'. unfold I. by rewrite field_upd. }
  rewrite ev_close_run. cbv zeta.
  destruct (_ && _).
  - destruct (set_retry _ _) as [a'|e] eqn:Hr; [|exact HI1].
    apply (schedule_holds clock I (fun _ => True)); try done.
    unfold I. rewrite lookup_upd_eq.
    apply set_retry_Ok in Hr as (_ & _ & _ & _ & _ & _ & _ & -> & _).
    exact HI1.
  - apply (handler_update_status_holds clock I (fun _ => True)); try done.
    intros w' x s Hw'. unfold I. by rewrite field_upd.
Qed.

Lemma handle_started (fuel : nat) (a : aid) (i0 : nat) (e : handler_event)
    (w : World) :
  started clock a i0 w ->
  started clock a i0 (world_of (handle clock fuel e w)).
Proof.
  intros Hw.
  apply (handle_holds clock (started clock a i0) (fun _ => True)); try done.
  - intros w' x s [Hs Hi]. split; [by rewrite field_upd | done].
  - intros w' x Hx [Hs Hi]. split; [|rewrite ticks_upd; simpl; lia].
    rewrite lookup_upd_ne; [done|]. congruence.
  - intros w' x wk [Hs Hi]. split; [by rewrite closed_field|].
    rewrite closed_ticks. lia.
  - intros w' x r a' Ha' [Hs Hi]. split; [|by rewrite ticks_upd].
    rewrite lookup_upd. destruct (decide (x = a)) as [->|]; [|done].
    apply set_retry_Ok in Ha'. rewrite <- Hs. tauto.
Qed.

(** The clock never runs backwards. *)
Hypothesis clock_mono : forall i j : nat, (i <= j)%nat -> clock i <= clock j.

Lemma handle_stopped (fuel : nat) (a : aid) (i0 : nat) (e : handler_event)
    (w : World) :
  started clock a i0 w ->
  stopped clock a i0 w \/ (exists wk, e = Ev_close a wk) ->
  stopped clock a i0 (world_of (handle clock fuel e w)).
Proof.
  intros Hw [Hk|[wk ->]].
  - apply (handle_holds clock
             (fun w' => started clock a i0 w' /\ stopped clock a i0 w')
             (fun _ => True)); try done.
    + intros w' x s [[Hs Hi] (t1 & Ht1 & Hle)].
      split; [split|exists t1].
      * by rewrite field_upd.
      * by rewrite ticks_upd.
      * by rewrite field_upd.
    + intros w' x Hx [[Hs Hi] (t1 & Ht1 & Hle)].
      split; [split|exists t1].
      * rewrite lookup_upd_ne; [done|]. congruence.
      * rewrite ticks_upd. simpl. lia.
      * by rewrite field_upd.
    + intros w' x wk [[Hs Hi] (t1 & Ht1 & Hle)]. split.
      * split; [by rewrite closed_field|]. rewrite closed_ticks. lia.
      * destruct (decide (x = a)) as [->|Hne].
        -- exists (clock (ticks w')). rewrite closed_lookup. simpl.
           split; [done | by apply clock_mono].
        -- exists t1. by rewrite closed_lookup_ne.
    + intros w' x r a' Ha' [[Hs Hi] (t1 & Ht1 & Hle)].
      apply set_retry_Ok in Ha'.
      split; [split; [|by rewrite ticks_upd]|exists t1; split; [|done]];
        (rewrite lookup_upd; destruct (decide (x = a)) as [->|]; [|done]).
      * rewrite <- Hs. tauto.
      * rewrite <- Ht1. tauto.
  - simpl. exists (clock (ticks w)). split; [apply ev_close_stop_time|].
    destruct Hw as [_ Hi]. by apply clock_mono.
Qed.

Lemma run_started (fuel : nat) (a : aid) (i0 : nat)
    (evs : list handler_event) (w : World) :
  started clock a i0 w ->
  started clock a i0 (world_of (run clock fuel evs w)).
Proof.
  revert w. induction evs as [|e evs IH]; intros w Hw; [done|].
  unfold run. simpl. rewrite bind_run.
  pose proof (handle_started fuel a i0 e w Hw) as Hw1.
  destruct (result_of (handle clock fuel e w)); [|exact Hw1].
  by apply IH.
Qed.

Lemma run_stopped (fuel : nat) (a : aid) (i0 : nat)
    (evs : list handler_event) (w : World) :
  started clock a i0 w ->
  stopped clock a i0 w \/ (exists wk, Ev_close a wk ∈ evs) ->
  result_of (run clock fuel evs w) = Ok tt ->
  stopped clock a i0 (world_of (run clock fuel evs w)).
Proof.
  revert w. induction evs as [|e evs IH]; intros w Hw Hk.
  { intros _. destruct Hk as [Hk|[wk Hin]]; [done | by inversion Hin]. }
  unfold run. simpl. rewrite bind_run.
  pose proof (handle_started fuel a i0 e w Hw) as Hw1.
  destruct (result_of (handle clock fuel e w)) eqn:Hr; [|discriminate].
  unfold result_of, world_of at 1. simpl. intros Hok.
  apply IH; [done| |exact Hok].
  destruct Hk as [Hk|[wk Hin]].
  - left. apply handle_stopped; auto.
  - apply elem_of_cons in Hin as [<-|Hin].
    + left. apply handle_stopped; eauto.
    + right. eauto.
Qed.

(** C4: the first [schedule()] of an Action records [start_time]; no later
    event (timer fire, completion, retry) of any Action changes it; every
    completion of the Action assigns [stop_time] anew, to the reading of
    the clock taken at that moment; and, the clock never running
    backwards, once an attempt of the Action has completed
    [start_time <= stop_time]. *)
Theorem start_time_kept_stop_time_after (fuel : nat) (a : aid) (w : World) :
  start_time (actions w !!! a) = None ->
  let w0 := world_of (schedule clock true a w) in
  let t0 := clock (ticks w) in
  start_time (actions w0 !!! a) = Some t0 /\
  (forall evs,
      start_time (actions (world_of (run clock fuel evs w0)) !!! a)
      = Some t0) /\
  (forall evs wk,
      stop_time (actions (world_of (ev_close clock fuel a wk
                   (world_of (run clock fuel evs w0)))) !!! a)
      = Some (clock (ticks (world_of (run clock fuel evs w0))))) /\
  (forall evs wk,
      Ev_close a wk ∈ evs ->
      result_of (run clock fuel evs w0) = Ok tt ->
      exists t1,
        stop_time (actions (world_of (run clock fuel evs w0)) !!! a)
        = Some t1 /\ t0 <= t1).
Proof.
  intros Hs w0 t0.
  assert (started clock a (ticks w) w0) as H0.
  { unfold w0, started. rewrite schedule_run. unfold world_of. simpl.
    rewrite Hs, lookup_upd_eq, ticks_upd. simpl. split; [done | lia]. }
  split; [apply H0|]. split; [|split].
  - intros evs. by apply (run_started fuel a (ticks w) evs w0).
  - intros evs wk. apply ev_close_stop_time.
  - intros evs wk Hin Hok.
    apply (run_stopped fuel a (ticks w) evs w0); eauto.
Qed.

End Timing.

(** * The engine at work *)

Lemma sample_clock_mono (i j : nat) :
  (i <= j)%nat -> sample_clock i <= sample_clock j.
Proof. unfold sample_clock. lia. Qed.

Lemma ev_close_decision_table_witness :
  let w := sample_world
             [(0%nat, sample_action svc_live WAITING_STATUS [] [] 1 2)] in
  let wk := WorkerPopen (Some 1) false in
  (0 < 2 -> 0 < 1) /\
  exists w',
    @ev_close sample_ops sample_clock 1 0%nat wk w
    = (Ok tt, w', [remove_task 0%nat; perform_delayed_action 0%nat]) /\
    get_retry (actions w' !!! 0%nat) = 1 /\
    status (actions w' !!! 0%nat) = WAITING_STATUS.
Proof.
  intros w wk. split; [lia|].
  pose proof (@ev_close_decision_table sample_ops sample_clock
                0 0%nat wk w) as W.
  vm_compute in W. vm_compute. apply W. intros _. reflexivity.
Defined.

Lemma start_time_kept_stop_time_after_witness :
  let w := sample_world
             [(0%nat, sample_action svc_live WAITING_STATUS [] [] 1 1)] in
  let failed := WorkerPopen (Some 1) false in
  let evs := [Ev_timer 0%nat; Ev_start 0%nat; Ev_close 0%nat failed;
              Ev_timer 0%nat; Ev_start 0%nat; Ev_close 0%nat failed] in
  let w0 := world_of (@schedule sample_clock true 0%nat w) in
  let w' := world_of (@run sample_ops sample_clock 2 evs w0) in
  start_time (actions w !!! 0%nat) = None /\
  start_time (actions w0 !!! 0%nat) = Some 1000 /\
  start_time (actions w' !!! 0%nat) = Some 1000 /\
  status (actions w' !!! 0%nat) = ERROR /\
  exists t1, stop_time (actions w' !!! 0%nat) = Some t1 /\ 1000 <= t1.
Proof.
  intros w failed evs w0 w'.
  assert (start_time (actions w !!! 0%nat) = None) as Hs by reflexivity.
  pose proof (@start_time_kept_stop_time_after sample_ops sample_clock
                sample_clock_mono 2 0%nat w Hs) as W.
  cbv zeta in W. destruct W as (W1 & W2 & _ & W4).
  split; [exact Hs|]. split; [|split; [|split]].
  - vm_compute in W1 |- *. exact W1.
  - specialize (W2 evs). vm_compute in W2 |- *. exact W2.
  - vm_compute. reflexivity.
  - apply (W4 evs failed).
    + apply list_elem_of_further, list_elem_of_further, list_elem_of_here.
    + vm_compute. reflexivity.
Defined.

Lemma simulate_suppresses_started_complete_witness :
  let ws := sample_world
              [(0%nat, sample_action svc_simulated WAITING_STATUS [] [] 0 0)] in
  let wl := sample_world
              [(0%nat, sample_action svc_live WAITING_STATUS [] [] 0 0)] in
  let evs := [Ev_start 0%nat; Ev_close 0%nat (WorkerPopen (Some 0) false)] in
  simulated ws 0%nat = true /\
  @ev_start 0%nat ws = (Ok tt, ws, []) /\
  (notify (entity 0%nat) EV_COMPLETE
     ∉ trace_of (@run sample_ops sample_clock 2 evs ws)) /\
  (exists t,
      trace_of (@update_status sample_ops sample_clock 2 0%nat DONE ws)
      = notify (entity 0%nat) EV_STATUS_CHANGED :: t) /\
  (exists t,
      trace_of (@update_status sample_ops sample_clock 2 0%nat DONE wl)
      = notify (entity 0%nat) EV_STATUS_CHANGED
          :: notify (entity 0%nat) EV_COMPLETE :: t).
Proof.
  intros ws wl evs.
  assert (simulated ws 0%nat = true) as Hs by reflexivity.
  assert (DONE ∈ action_statuses) as Hd by status_mem.
  split; [exact Hs|].
  destruct (@simulate_suppresses_started_complete sample_ops sample_clock
              1 0%nat ws) as (S1 & S2 & _).
  destruct (S1 Hs) as (S11 & S12 & _).
  split; [exact S11|]. split; [|split].
  - destruct (@simulate_suppresses_started_complete sample_ops sample_clock
                2 0%nat ws) as (R1 & _).
    destruct (R1 Hs) as (_ & R12 & _). apply (R12 evs).
  - apply (S2 DONE Hd).
  - destruct (@simulate_suppresses_started_complete sample_ops sample_clock
                1 0%nat wl) as (_ & _ & L3).
    apply (L3 DONE); [reflexivity | exact Hd | status_mem].
Defined.

Lemma prepare_guarded_noop_idempotent_witness :
  let w := sample_world
             [(0%nat, sample_action svc_live NO_STATUS [] [] 0 0)] in
  let w' := world_of (@prepare sample_ops sample_clock 2 0%nat w) in
  status (actions w' !!! 0%nat) = WAITING_STATUS /\
  @prepare sample_ops sample_clock 1 0%nat w' = (Ok tt, w', []) /\
  bind (@prepare sample_ops sample_clock 2 0%nat)
       (fun _ => @prepare sample_ops sample_clock 1 0%nat) w
  = @prepare sample_ops sample_clock 2 0%nat w.
Proof.
  intros w w'. split; [vm_compute; reflexivity|].
  destruct (@prepare_guarded_noop_idempotent sample_ops sample_clock
              2 0 0%nat w) as (_ & W & _).
  apply W. vm_compute. discriminate.
Defined.

Lemma prepare_dispatch_witness :
  let w := sample_world
             [(0%nat, sample_action svc_live ERROR [] [mkDependency 1%nat REQUIRE]
                                    0 0);
              (1%nat, sample_action svc_live NO_STATUS
                                    [mkDependency 0%nat REQUIRE] [] 0 0)] in
  let r := @prepare sample_ops sample_clock 2 1%nat w in
  @eval_deps_status sample_ops (actions w) 1%nat = DEP_ERROR /\
  trace_of r = [notify (entity 1%nat) EV_STATUS_CHANGED; perform_action 1%nat]
  /\ status (actions (world_of r) !!! 1%nat) = WAITING_STATUS.
Proof.
  intros w r.
  assert (@eval_deps_status sample_ops (actions w) 1%nat = DEP_ERROR) as Hd
    by (vm_compute; reflexivity).
  split; [exact Hd|].
  destruct (@prepare_dispatch sample_ops sample_clock 0 1%nat w) as (W & _).
  - vm_compute. reflexivity.
  - rewrite Hd. discriminate.
  - reflexivity.
  - destruct (W (or_introl Hd)) as [W1 W2]. split; [|exact W2].
    unfold r. rewrite W1. vm_compute. reflexivity.
Defined.

(** C7 as stated fails on an Action without parents: its dependencies
    evaluate to [DONE] and it is not skipped, yet [prepare()] puts it in
    [WAITING_STATUS] and schedules it instead of setting it [DONE]. *)
Lemma prepare_done_without_parents_schedules :
  let w := sample_world
             [(0%nat, sample_action svc_live NO_STATUS [] [] 0 0)] in
  let r := @prepare sample_ops sample_clock 2 0%nat w in
  status (actions w !!! 0%nat) = NO_STATUS /\
  @skipped sample_ops (actions w) 0%nat = false /\
  @eval_deps_status sample_ops (actions w) 0%nat = DONE /\
  r = (Ok tt, world_of r,
       [notify (entity 0%nat) EV_STATUS_CHANGED; perform_action 0%nat]) /\
  status (actions (world_of r) !!! 0%nat) = WAITING_STATUS /\
  ¬ (status (actions (world_of r) !!! 0%nat) = DONE
     /\ Forall (fun e => ¬ schedules 0%nat e) (trace_of r)).
Proof.
  intros w r. repeat split; try (vm_compute; reflexivity).
  intros [Hdone _]. vm_compute in Hdone. discriminate.
Qed.

Lemma schedule_dispatch_witness :
  let w := sample_world
             [(0%nat, sample_action svc_live WAITING_STATUS [] [] 3 0)] in
  let w' := upd 0%nat (set_start_time (Some 1000)) (tick w) in
  @schedule sample_clock true 0%nat w
  = (Ok tt, w', [perform_delayed_action 0%nat]) /\
  @ev_timer sample_ops sample_clock 0%nat w'
  = @schedule sample_clock false 0%nat w' /\
  @schedule sample_clock false 0%nat w' = (Ok tt, w', [perform_action 0%nat]).
Proof.
  intros w w'. split; [vm_compute; reflexivity|].
  destruct (@schedule_dispatch sample_ops sample_clock false 0%nat w')
    as (_ & W & _).
  destruct W as [W1 _]; [vm_compute; reflexivity|].
  split; [exact W1 | vm_compute; reflexivity].
Defined.

(** C8 as stated fails in simulate mode: the delayed Action is handed to
    [perform_delayed_action], but when its timer fires [ev_timer] does not
    re-enter [schedule(allow_delay=False)]; it reports to the parent
    service and the action manager is not asked to run anything. *)
Lemma ev_timer_simulate_does_not_schedule :
  let w := sample_world
             [(0%nat, sample_action svc_simulated WAITING_STATUS [] [] 3 0)] in
  let w' := world_of (@schedule sample_clock true 0%nat w) in
  trace_of (@schedule sample_clock true 0%nat w)
  = [perform_delayed_action 0%nat] /\
  @ev_timer sample_ops sample_clock 0%nat w'
  = (Ok tt, w', [Service_update_status svc_simulated NO_STATUS]) /\
  @schedule sample_clock false 0%nat w' = (Ok tt, w', [perform_action 0%nat]) /\
  @ev_timer sample_ops sample_clock 0%nat w'
  ≠ @schedule sample_clock false 0%nat w'.
Proof.
  intros w w'. repeat split; try (vm_compute; reflexivity).
  intros Heq. vm_compute in Heq. discriminate.
Qed.

Lemma simulate_suppresses_trigger_dep_witness :
  let w := sample_world
             [(0%nat, sample_action svc_simulated WAITING_STATUS
                                    [] [mkDependency 1%nat REQUIRE] 0 0);
              (1%nat, sample_action svc_simulated NO_STATUS
                                    [mkDependency 0%nat REQUIRE] [] 0 0)] in
  let r := @update_status sample_ops sample_clock 3 0%nat DONE w in
  (notify (edge 0%nat 1%nat) EV_TRIGGER_DEP ∉ trace_of r) /\
  status (actions (world_of r) !!! 1%nat) = DONE /\
  trace_of r = [notify (entity 0%nat) EV_STATUS_CHANGED;
                notify (entity 1%nat) EV_STATUS_CHANGED;
                Service_update_status svc_simulated DONE].
Proof.
  intros w r.
  destruct (@simulate_suppresses_trigger_dep sample_ops sample_clock
              2 0%nat DONE w) as (W & _); [status_mem | status_mem |].
  destruct W as (W1 & _); [reflexivity|].
  split; [apply (W1 1%nat)|].
  split; vm_compute; reflexivity.
Defined.

(** * Further properties of the Action life cycle *)

(** ** Assertions *)

Lemma no_assertion_bind {A B} (m : M A) (f : A -> M B) (w : World) :
  no_assertion (m w) ->
  (forall x, result_of (m w) = Ok x -> no_assertion (f x (world_of (m w)))) ->
  no_assertion (bind m f w).
Proof.
  intros Hm Hf msg. rewrite bind_run.
  destruct (result_of (m w)) as [x|e] eqn:Hr.
  - apply (Hf x eq_refl).
  - unfold result_of. simpl. intros [= ->]. by apply (Hm msg).
Qed.

Lemma no_assertion_for_each {A} (l : list A) (body : A -> M unit) :
  (forall x w, x ∈ l -> no_assertion (body x w)) ->
  forall w, no_assertion (for_each l body w).
Proof.
  induction l as [|x l IH]; intros Hbody w; simpl.
  - intros msg. discriminate.
  - apply no_assertion_bind.
    + apply Hbody. left.
    + intros _ _. apply IH. intros y w' Hy. apply Hbody. by right.
Qed.

Section Assertions.

Context `{BaseEntityOps}.
Variable clock : nat -> Time.

Lemma traversal_no_assertion (fuel : nat) :
  (forall x w, no_assertion (prepare clock fuel x w)) /\
  (forall x s w,
      s ∈ action_statuses -> no_assertion (update_status clock fuel x s w)).
Proof.
  induction fuel as [|fuel [IHp IHu]].
  { split; intros; intros msg; by rewrite ?prepare_O, ?update_status_O. }
  split.
  - intros x w. rewrite prepare_S. cbv zeta.
    destruct (_ && _); [|by intros msg].
    destruct (skipped _ _); [apply IHu; status_mem|].
    destruct (_ || _).
    { apply no_assertion_bind; [apply IHu; status_mem|].
      intros _ _ msg. by rewrite schedule_run. }
    destruct (bool_decide _); [apply IHu; status_mem|].
    apply no_assertion_for_each. intros dep w' _. apply IHp.
  - intros x s w Hs msg. rewrite update_status_S.
    rewrite (bool_decide_eq_true_2 _ Hs). simpl.
    destruct (negb _); [|done].
    destruct (bool_decide _); [done|].
    unfold result_of at 1. simpl.
    apply (no_assertion_for_each (children (actions w !!! x))
             (trigger_dep clock fuel x)).
    intros dep w' _ msg'. rewrite trigger_dep_run.
    destruct (is_ready _ _); [|done].
    destruct (simulate _); [apply IHp|].
    unfold result_of at 1. simpl. apply IHp.
Qed.

(** X1: [prepare()] never trips an assertion, and neither does
    [update_status()] when it is given a status it accepts: whatever the
    graph, the only exception the traversal can end on is the recursion
    limit.  A status outside the accepted ones ([WARNING], [DEP_ERROR],
    [MISSING]) is refused before anything is written or notified. *)
Theorem traversal_raises_no_assertion (fuel : nat) (x : aid) (s : Status)
    (w : World) :
  no_assertion (prepare clock fuel x w) /\
  (s ∈ action_statuses -> no_assertion (update_status clock fuel x s w)) /\
  (s ∉ action_statuses ->
   update_status clock (S fuel) x s w
   = (Raise (AssertionError "Bad action status"), w, [])).
Proof.
  split; [apply traversal_no_assertion|].
  split; [apply traversal_no_assertion|].
  intros Hs. rewrite update_status_S.
  by rewrite (bool_decide_eq_false_2 _ Hs).
Qed.

(** X2: [ev_close] ends on a failed assertion exactly when the attempt
    failed, a retry is left and the delay of the Action is not greater
    than 0.  The exception then leaves the Action half-way: the task is
    removed and [stop_time] and [worker] are recorded, but the retry
    counter and the status are the ones before, and nothing is
    rescheduled. *)
Theorem ev_close_assertion_iff (fuel : nat) (self : aid) (wk : Worker)
    (w : World) :
  let a := actions (closed clock self wk w) !!! self in
  let failed_with_retry :=
    decision_table (nb_errors a) (nb_timeout a) (get_retry a) (errors a)
    = Retry in
  ((exists msg,
       result_of (ev_close clock fuel self wk w) = Raise (AssertionError msg))
   <-> failed_with_retry /\ delay a <= 0) /\
  (failed_with_retry -> delay a <= 0 ->
   ev_close clock fuel self wk w
   = (Raise (AssertionError "No way to specify retry without a delay"),
      closed clock self wk w, [remove_task self]) /\
   get_retry a = get_retry (actions w !!! self) /\
   status a = status (actions w !!! self)).
Proof.
  intros a failed_with_retry. unfold failed_with_retry.
  rewrite ev_close_branch, ev_close_run. cbv zeta. fold a.
  destruct ((truthy (nb_errors a) || truthy (nb_timeout a))
            && (0 <? get_retry a)) eqn:Hrow.
  - apply andb_true_iff in Hrow as [_ Hr]. apply Z.ltb_lt in Hr.
    destruct (Z.lt_ge_cases 0 (delay a)) as [Hd|Hd].
    + destruct (set_retry_succeeds (get_retry a - 1) a Hd ltac:(lia))
        as (a' & Ha').
      rewrite Ha', schedule_run. split; [|lia].
      split; [intros [msg Hm]; discriminate | lia].
    + assert (set_retry (get_retry a - 1) a
              = Raise (AssertionError
                         "No way to specify retry without a delay")) as Hraise.
      { unfold set_retry.
        by destruct (Z.ltb_spec 0 (delay a)); [lia|]. }
      rewrite Hraise. split.
      * split; [done | eauto].
      * intros _ _. split; [done|].
        unfold a. split; by rewrite closed_field.
  - split; [|discriminate]. split; [|by intros [? _]].
    intros [msg Hm]. unfold result_of at 1 in Hm. simpl in Hm.
    exfalso. revert Hm. apply traversal_no_assertion.
    destruct ((errors a <? nb_timeout a) && (nb_errors a =? 0));
      [status_mem|].
    destruct (errors a <? nb_errors a + nb_timeout a); status_mem.
Qed.

End Assertions.

Lemma ev_close_assertion_iff_witness :
  let w := sample_world
             [(0%nat, sample_action svc_live WAITING_STATUS [] [] 0 2)] in
  let wk := WorkerPopen (Some 1) false in
  @ev_close sample_ops sample_clock 1 0%nat wk w
  = (Raise (AssertionError "No way to specify retry without a delay"),
     closed sample_clock 0%nat wk w, [remove_task 0%nat]) /\
  get_retry (actions (closed sample_clock 0%nat wk w) !!! 0%nat) = 2.
Proof.
  intros w wk.
  destruct (@ev_close_assertion_iff sample_ops sample_clock 1 0%nat wk w)
    as (_ & W).
  destruct W as (W1 & W2 & _);
    [vm_compute; reflexivity | vm_compute; discriminate |].
  split; [exact W1 | vm_compute; reflexivity].
Defined.

Lemma traversal_raises_no_assertion_witness :
  let w := sample_world
             [(0%nat, sample_action svc_live WAITING_STATUS [] [] 0 0)] in
  @update_status sample_ops sample_clock 1 0%nat DEP_ERROR w
  = (Raise (AssertionError "Bad action status"), w, []) /\
  result_of (@update_status sample_ops sample_clock 1 0%nat ERROR w) = Ok tt.
Proof.
  intros w. split; [|vm_compute; reflexivity].
  destruct (@traversal_raises_no_assertion sample_ops sample_clock
              0 0%nat DEP_ERROR w) as (_ & _ & W).
  apply W. status_mem.
Defined.

(** ** What a run leaves alone *)

Lemma set_retry_same_config (r : Z) (a a' : Action) :
  set_retry r a = Ok a' -> same_config a a'.
Proof.
  unfold set_retry.
  destruct (negb (0 <? delay a)); [discriminate|].
  destruct (negb (0 <=? r)); [discriminate|].
  intros [= <-]. unfold same_config.
  destruct (_ =? _); simpl; tauto.
Qed.

Lemma same_config_refl (a : Action) : same_config a a.
Proof. unfold same_config. tauto. Qed.

Lemma same_config_trans (a b c : Action) :
  same_config a b -> same_config b c -> same_config a c.
Proof. unfold same_config. intuition congruence. Qed.

Section Frame.

Context `{BaseEntityOps}.
Variable clock : nat -> Time.

Lemma same_config_upd (w0 w : World) (x : aid) (f : Action -> Action) :
  (forall a, same_config a (f a)) ->
  (forall y, same_config (actions w0 !!! y) (actions w !!! y)) ->
  forall y, same_config (actions w0 !!! y) (actions (upd x f w) !!! y).
Proof.
  intros Hf Hw y. rewrite lookup_upd.
  destruct (decide (x = y)) as [->|]; [|apply Hw].
  eapply same_config_trans; [apply Hw | apply Hf].
Qed.

(** X3: a run of the handlers, and a call of [prepare()], write statuses,
    times, the worker and the retry counter only: for every Action the
    name, the parent and child dependencies, the parent service, the
    errors tolerance, the timeout, the delay and the command are the same
    afterwards, whether the run returned or raised. *)
Theorem run_keeps_graph_and_config (fuel : nat) (evs : list handler_event)
    (x y : aid) (w : World) :
  same_config (actions w !!! y)
              (actions (world_of (run clock fuel evs w)) !!! y) /\
  same_config (actions w !!! y)
              (actions (world_of (prepare clock fuel x w)) !!! y).
Proof.
  pose (I := fun w' : World =>
               forall z, same_config (actions w !!! z) (actions w' !!! z)).
  assert (I w) as HI by (intros z; apply same_config_refl).
  assert (forall w' z s, I w' -> I (upd z (set_status s) w')) as I_status.
  { intros w' z s Hw' u. apply same_config_upd; [|exact Hw'].
    intros a. unfold same_config. simpl. tauto. }
  assert (forall w' z, start_time (actions w' !!! z) = None -> I w' ->
            I (upd z (set_start_time (Some (clock (ticks w')))) (tick w')))
    as I_start.
  { intros w' z _ Hw' u. apply same_config_upd; [|exact Hw'].
    intros a. unfold same_config. simpl. tauto. }
  split.
  - apply (run_holds clock I (fun _ => True)); try done.
    + intros w' z wk Hw' u. unfold closed.
      apply same_config_upd; [intros a; unfold same_config; simpl; tauto|].
      intros v.
      apply same_config_upd; [intros a; unfold same_config; simpl; tauto|].
      exact Hw'.
    + intros w' z r a' Ha' Hw' u. rewrite lookup_upd.
      destruct (decide (z = u)) as [->|]; [|apply Hw'].
      eapply same_config_trans; [apply Hw'|].
      by apply (set_retry_same_config r).
  - apply (prepare_holds clock I (fun _ => True)); try done.
    intros w' z s _ _. apply I_status.
Qed.

(** X4: an Action that has a status keeps that status while some other
    entry point of the graph is prepared, and the action manager is not
    asked to run it again: [prepare()] only writes the status of, and only
    schedules, Actions that had none. *)
Theorem prepare_spares_actions_with_status (fuel : nat) (x a : aid)
    (w : World) :
  status (actions w !!! a) ≠ NO_STATUS ->
  status (actions (world_of (prepare clock fuel x w)) !!! a)
  = status (actions w !!! a) /\
  Forall (fun e => ¬ schedules a e) (trace_of (prepare clock fuel x w)).
Proof.
  intros Hs.
  by destruct (prepare_keeps_status clock fuel x a
                 (status (actions w !!! a)) w Hs eq_refl).
Qed.

End Frame.

Lemma prepare_spares_actions_with_status_witness :
  let w := sample_world
             [(0%nat, sample_action svc_live DONE [] [mkDependency 1%nat REQUIRE]
                                    0 0);
              (1%nat, sample_action svc_live NO_STATUS
                                    [mkDependency 0%nat REQUIRE] [] 0 0)] in
  let r := @prepare sample_ops sample_clock 3 1%nat w in
  status (actions (world_of r) !!! 1%nat) = DONE /\
  status (actions (world_of r) !!! 0%nat) = DONE /\
  Forall (fun e => ¬ schedules 0%nat e) (trace_of r).
Proof.
  intros w r. split; [vm_compute; reflexivity|].
  apply (@prepare_spares_actions_with_status sample_ops sample_clock
           3 1%nat 0%nat w).
  vm_compute. discriminate.
Defined.

(** ** Retries *)


Section Retries.

Context `{BaseEntityOps}.
Variable clock : nat -> Time.




End Retries.


(** ** Counting failed nodes *)

Lemma node_retcodes_Permutation (rcs rcs' : list (Z * list string)) :
  rcs ≡ₚ rcs' -> node_retcodes rcs ≡ₚ node_retcodes rcs'.
Proof.
  unfold node_retcodes. induction 1 as [|p l l' _ IH|p q l|l1 l2 l3 _ IH1 _ IH2];
    simpl.
  - done.
  - by rewrite IH.
  - rewrite !app_assoc. f_equiv. apply Permutation_app_comm.
  - by rewrite IH1.
Qed.

Lemma length_filter_zero {A} (P : A -> Prop) `{forall x, Decision (P x)}
    (l : list A) :
  length (filter P l) = 0%nat <-> Forall (fun x => ¬ P x) l.
Proof.
  induction l as [|x l IH]; simpl.
  - split; [constructor | done].
  - destruct (decide (P x)) as [Hx|Hx].
    + rewrite filter_cons_True by done. simpl. split; [done|].
      intros HF. apply Forall_cons in HF as [Hn _]. by destruct Hn.
    + rewrite filter_cons_False by done. rewrite IH, Forall_cons. tauto.
Qed.

(** X6: for a multi-node worker, [nb_errors()] does not depend on the order
    in which [iter_retcodes()] yields its groups; it lies between 0 and the
    number of nodes reported; and it is 0 exactly when every node reported
    the return code 0. *)
Theorem nb_errors_counts_failed_nodes (a : Action)
    (rcs : list (Z * list string)) (keys : list string) :
  worker a = Some (WorkerDistant rcs keys) ->
  (forall a' rcs' keys',
      worker a' = Some (WorkerDistant rcs' keys') ->
      rcs ≡ₚ rcs' -> nb_errors a' = nb_errors a) /\
  0 <= nb_errors a <= Z.of_nat (length (node_retcodes rcs)) /\
  (nb_errors a = 0 <-> Forall (fun p => snd p = 0) (node_retcodes rcs)).
Proof.
  intros Hw.
  assert (forall b l k, worker b = Some (WorkerDistant l k) ->
            nb_errors b = nodes_in_error l) as Hcount.
  { intros b l k Hb. unfold nb_errors. rewrite Hb, count_retcodes_acc. lia. }
  rewrite (Hcount a rcs keys Hw). split; [|split].
  - intros a' rcs' keys' Hw' Hperm. rewrite (Hcount a' rcs' keys' Hw').
    unfold nodes_in_error.
    by rewrite (node_retcodes_Permutation rcs rcs' Hperm).
  - unfold nodes_in_error.
    pose proof (length_filter (fun p : string * Z => snd p ≠ 0)
                  (node_retcodes rcs)).
    lia.
  - unfold nodes_in_error.
    rewrite <- Nat2Z.inj_0, Nat2Z.inj_iff, length_filter_zero.
    apply Forall_iff. intros p.
    destruct (decide (snd p = 0)); tauto.
Qed.

Lemma nb_errors_counts_failed_nodes_witness :
  let a rcs := set_worker (Some (WorkerDistant rcs ["n9"]))
                 (Action_init "start" svc_live None (-1) 0) in
  let rcs := [(0, ["n1"; "n2"]); (1, ["n3"]); (127, ["n4"; "n5"])] in
  let rcs' := [(127, ["n4"; "n5"]); (0, ["n1"; "n2"]); (1, ["n3"])] in
  nb_errors (a rcs') = nb_errors (a rcs) /\ nb_errors (a rcs) = 3.
Proof.
  intros a rcs rcs'. split; [|reflexivity].
  destruct (nb_errors_counts_failed_nodes (a rcs) rcs ["n9"] eq_refl)
    as (W & _).
  apply (W (a rcs') rcs' ["n9"] eq_refl).
  unfold rcs, rcs'.
  apply (Permutation_app_comm [(0, ["n1"; "n2"]); (1, ["n3"])]
                              [(127, ["n4"; "n5"])]).
Defined.

(** ** Dependency cycles *)

Section Cycles.

Context `{BaseEntityOps}.
Variable clock : nat -> Time.

(** X7: two Actions without a status that are each the only parent of the
    other (or one Action that is its own parent), with nothing skipped and
    dependencies evaluating to [NO_STATUS], send [prepare()] round in
    circles: whatever the recursion limit, the call ends on it, and
    neither a status nor a notification nor a schedule comes out of
    it. *)
Theorem prepare_cycle_hits_recursion_limit (fuel : nat) (x y : aid)
    (sx sy : Strength) (w : World) :
  status (actions w !!! x) = NO_STATUS ->
  status (actions w !!! y) = NO_STATUS ->
  eval_deps_status (actions w) x = NO_STATUS ->
  eval_deps_status (actions w) y = NO_STATUS ->
  skipped (actions w) x = false ->
  skipped (actions w) y = false ->
  parents (actions w !!! x) = [mkDependency y sx] ->
  parents (actions w !!! y) = [mkDependency x sy] ->
  prepare clock fuel x w = (Raise RecursionError, w, []).
Proof.
  intros Hsx Hsy Hdx Hdy Hkx Hky Hpx Hpy.
  assert (forall u v su,
            status (actions w !!! u) = NO_STATUS ->
            status (actions w !!! v) = NO_STATUS ->
            eval_deps_status (actions w) u = NO_STATUS ->
            skipped (actions w) u = false ->
            parents (actions w !!! u) = [mkDependency v su] ->
            forall n,
              prepare clock n v w = (Raise RecursionError, w, []) ->
              prepare clock (S n) u w = (Raise RecursionError, w, []))
    as Hstep.
  { intros u v su Hsu Hsv Hdu Hku Hpu n Hrec.
    rewrite prepare_S. cbv zeta.
    rewrite (bool_decide_eq_true_2 _ Hsu), Hdu, Hku, Hpu. simpl.
    unfold search_deps. rewrite Hpu.
    rewrite filter_cons_True by (simpl; rewrite Hsv; left).
    rewrite filter_nil. simpl.
    by rewrite bind_run, Hrec. }
  assert (forall n,
            prepare clock n x w = (Raise RecursionError, w, []) /\
            prepare clock n y w = (Raise RecursionError, w, [])) as Hboth.
  { induction n as [|n [IHx IHy]]; [by rewrite !prepare_O|].
    split; [by apply (Hstep x y sx) | by apply (Hstep y x sy)]. }
  apply Hboth.
Qed.

(** X8: scheduling a delayed Action and letting its timer fire, outside
    simulate mode, asks the action manager first for the delay and then
    for the execution, once each; [start_time] is the one recorded by the
    first of the two calls, and the timer fire changes nothing in the
    world. *)
Theorem delayed_dispatch (self : aid) (w : World) :
  0 < delay (actions w !!! self) ->
  simulated w self = false ->
  bind (schedule clock true self) (fun _ => ev_timer clock self) w
  = (Ok tt, world_of (schedule clock true self w),
     [perform_delayed_action self; perform_action self]) /\
  start_time (actions (world_of (schedule clock true self w)) !!! self)
  = Some (default (clock (ticks w)) (start_time (actions w !!! self))).
Proof.
  intros Hd Hsim.
  assert (simulated (world_of (schedule clock true self w)) self = false)
    as Hsim'.
  { rewrite schedule_run. unfold world_of, simulated in *. simpl.
    destruct (start_time _); [done|].
    rewrite lookup_upd_eq. simpl. done. }
  assert (start_time (actions (world_of (schedule clock true self w))
                        !!! self)
          = Some (default (clock (ticks w))
                          (start_time (actions w !!! self)))) as Hst.
  { rewrite schedule_run. unfold world_of. simpl.
    destruct (start_time (actions w !!! self)) eqn:Hs; simpl; [done|].
    by rewrite lookup_upd_eq. }
  split; [|exact Hst].
  rewrite bind_run, ev_timer_run, Hsim'.
  rewrite (schedule_run clock false). rewrite Hst. rewrite andb_false_r.
  rewrite schedule_run. unfold result_of, world_of, trace_of. simpl.
  by rewrite (proj2 (Z.ltb_lt _ _) Hd).
Qed.

End Cycles.

Lemma prepare_cycle_hits_recursion_limit_witness :
  let w := sample_world
             [(0%nat, sample_action svc_live NO_STATUS
                        [mkDependency 1%nat REQUIRE]
                        [mkDependency 1%nat REQUIRE] 0 0);
              (1%nat, sample_action svc_live NO_STATUS
                        [mkDependency 0%nat REQUIRE]
                        [mkDependency 0%nat REQUIRE] 0 0)] in
  @prepare sample_ops sample_clock 1000 0%nat w = (Raise RecursionError, w, []).
Proof.
  intros w.
  apply (@prepare_cycle_hits_recursion_limit sample_ops sample_clock
           1000 0%nat 1%nat REQUIRE REQUIRE w);
    vm_compute; reflexivity.
Defined.

Lemma delayed_dispatch_witness :
  let w := sample_world
             [(0%nat, sample_action svc_live WAITING_STATUS [] [] 3 0)] in
  trace_of (bind (@schedule sample_clock true 0%nat)
                 (fun _ => @ev_timer sample_ops sample_clock 0%nat) w)
  = [perform_delayed_action 0%nat; perform_action 0%nat].
Proof.
  intros w.
  destruct (@delayed_dispatch sample_ops sample_clock 0%nat w) as [W _];
    [vm_compute; reflexivity | vm_compute; reflexivity |].
  by rewrite W.
Defined.

(** ** Configuration and the retry counter *)

(** X9: [fromdict] assigns [delay] before [retry].  A dict that carries a
    retry is accepted exactly when the delay in force at that point (the one
    of the dict, else the one the Action has after [BaseEntity.fromdict]) is
    greater than 0 and the retry is not negative; the Action then has that
    delay and that retry.  With a delay that is not greater than 0 the
    assertion of the retry setter fires, even for [retry: 0].  A dict
    without a retry is always accepted. *)
Theorem fromdict_delay_before_retry (base : Action -> result Action)
    (d : actdict) (self self1 : Action) :
  base self = Ok self1 ->
  let delay_in_force := default (delay self1) (dict_delay d) in
  (forall r,
      dict_retry d = Some r ->
      ((exists a, fromdict base d self = Ok a)
       <-> 0 < delay_in_force /\ 0 <= r) /\
      (forall a,
          fromdict base d self = Ok a ->
          delay a = delay_in_force /\ get_retry a = r /\
          command a = from_option Some (command self1) (dict_cmd d)) /\
      (delay_in_force <= 0 ->
       fromdict base d self
       = Raise (AssertionError "No way to specify retry without a delay"))) /\
  (dict_retry d = None ->
   exists a,
     fromdict base d self = Ok a /\
     delay a = delay_in_force /\ get_retry a = get_retry self1 /\
     command a = from_option Some (command self1) (dict_cmd d)).
Proof.
  intros Hbase delay_in_force. unfold fromdict. rewrite Hbase.
  set (a1 := match dict_delay d with
             | Some v => set_delay v self1
             | None => self1
             end).
  set (a2 := match dict_cmd d with
             | Some c => set_command (Some c) a1
             | None => a1
             end).
  assert (delay a2 = delay_in_force /\ get_retry a2 = get_retry self1 /\
          command a2 = from_option Some (command self1) (dict_cmd d))
    as (Hd2 & Hr2 & Hc2).
  { unfold a2, a1, delay_in_force.
    destruct (dict_cmd d), (dict_delay d); simpl; done. }
  split.
  - intros r ->. split; [|split].
    + split.
      * intros [a Ha]. apply set_retry_Ok in Ha. rewrite <- Hd2. tauto.
      * intros [Hd Hr]. apply set_retry_succeeds; [by rewrite Hd2 | done].
    + intros a Ha.
      destruct (set_retry_same_config _ _ _ Ha)
        as (_ & _ & _ & _ & _ & _ & Hda & Hca).
      apply set_retry_Ok in Ha as (_ & _ & Hra & _).
      unfold get_retry. rewrite Hda, Hca, Hd2, Hc2. done.
    + intros Hle. unfold set_retry.
      destruct (Z.ltb_spec 0 (delay a2)); [lia | reflexivity].
  - intros ->. exists a2. done.
Qed.

Lemma fromdict_delay_before_retry_witness :
  let fresh := Action_init "start" svc_live None (-1) 0 in
  (exists a,
      fromdict Ok (mkActdict (Some 2) (Some "/bin/true") (Some 3)) fresh = Ok a
      /\ delay a = 2 /\ get_retry a = 3) /\
  fromdict Ok (mkActdict None (Some "/bin/true") (Some 0)) fresh
  = Raise (AssertionError "No way to specify retry without a delay").
Proof.
  intros fresh. split.
  - destruct (fromdict_delay_before_retry Ok
                (mkActdict (Some 2) (Some "/bin/true") (Some 3)) fresh fresh
                eq_refl) as (W & _).
    destruct (W 3 eq_refl) as (W1 & W2 & _).
    destruct (proj2 W1) as (a & Ha); [simpl; lia|].
    exists a. split; [exact Ha|].
    destruct (W2 a Ha) as (Hd & Hr & _). by split.
  - destruct (fromdict_delay_before_retry Ok
                (mkActdict None (Some "/bin/true") (Some 0)) fresh fresh
                eq_refl) as (W & _).
    destruct (W 0 eq_refl) as (_ & _ & W3). apply W3. simpl. lia.
Defined.

Lemma run_retry_ops_unassigned (ops : list retry_op) (self self' : Action) :
  _retry_backup self = -1 ->
  _retry self = 0 \/ _retry self = -1 ->
  run_retry_ops ops self = Ok self' ->
  first_assigned ops = None ->
  _retry_backup self' = -1 /\ (_retry self' = 0 \/ _retry self' = -1).
Proof.
  revert self. induction ops as [|o ops IH]; intros self Hb Hr; simpl.
  - by intros [= <-] _.
  - destruct (run_retry_op o self) as [self1|e] eqn:Ho; [|discriminate].
    intros Hrun Hfirst. destruct o; simpl in Ho; try discriminate.
    + apply set_retry_Ok in Ho as (_ & Hpos & _).
      unfold get_retry in Hpos. lia.
    + injection Ho as <-. by apply (IH (set_delay d self)).
    + injection Ho as <-. apply (IH (reset self)); try done.
      simpl. lia.
Qed.

Lemma run_retry_ops_nonneg (ops : list retry_op) (self self' : Action) :
  0 <= _retry_backup self -> 0 <= _retry self ->
  run_retry_ops ops self = Ok self' ->
  0 <= _retry self'.
Proof.
  revert self. induction ops as [|o ops IH]; intros self Hb Hr; simpl.
  - by intros [= <-].
  - destruct (run_retry_op o self) as [self1|e] eqn:Ho; [|discriminate].
    intros Hrun. apply (IH self1); [| |done].
    + destruct o; simpl in Ho.
      * apply set_retry_Ok in Ho as (_ & _ & _ & -> & _).
        destruct (Z.eqb_spec (_retry_backup self) (-1)); lia.
      * apply set_retry_Ok in Ho as (_ & _ & _ & -> & _).
        destruct (Z.eqb_spec (_retry_backup self) (-1)); lia.
      * by injection Ho as <-.
      * by injection Ho as <-.
    + destruct o; simpl in Ho.
      * apply set_retry_Ok in Ho as (_ & ? & -> & _). done.
      * apply set_retry_Ok in Ho as (_ & ? & -> & _). done.
      * by injection Ho as <-.
      * by injection Ho as <-.
Qed.

Lemma run_retry_ops_assigned (ops : list retry_op) (self self' : Action)
    (r : Z) :
  _retry_backup self = -1 ->
  _retry self = 0 \/ _retry self = -1 ->
  run_retry_ops ops self = Ok self' ->
  first_assigned ops = Some r ->
  0 <= r /\ 0 <= _retry self'.
Proof.
  revert self. induction ops as [|o ops IH]; intros self Hb Hr; simpl.
  - discriminate.
  - destruct (run_retry_op o self) as [self1|e] eqn:Ho; [|discriminate].
    intros Hrun Hfirst. destruct o; simpl in Ho.
    + injection Hfirst as ->.
      apply set_retry_Ok in Ho as (_ & Hpos & Hr1 & Hb1 & _).
      rewrite Hb in Hb1. simpl in Hb1. split; [done|].
      apply (run_retry_ops_nonneg ops self1 self'); [lia | lia | done].
    + apply set_retry_Ok in Ho as (_ & Hpos & _).
      unfold get_retry in Hpos. lia.
    + injection Ho as <-. by apply (IH (set_delay d self)).
    + injection Ho as <-. apply (IH (reset self)); try done.
      simpl. lia.
Qed.

(** X10: over any history of an Action built by [Action.__init__] in which
    every assignment was accepted: once [retry] has been assigned it is
    never negative afterwards, through reassignments, decrements and
    resets; as long as it has not been assigned it is 0, or -1 after a
    [reset()], and a [reset()] leaves it at -1 rather than at the 0 of the
    constructor. *)
Theorem retry_counter_range (nm : string) (svc : Service)
    (cmd : option string) (tmo dly : Z) (ops : list retry_op)
    (self : Action) :
  run_retry_ops ops (Action_init nm svc cmd tmo dly) = Ok self ->
  (forall r, first_assigned ops = Some r -> 0 <= r /\ 0 <= get_retry self) /\
  (first_assigned ops = None ->
   (get_retry self = 0 \/ get_retry self = -1) /\
   get_retry (reset self) = -1).
Proof.
  intros Hrun. split.
  - intros r Hfirst.
    eapply run_retry_ops_assigned; [| |exact Hrun|exact Hfirst]; simpl;
      [reflexivity | by left].
  - intros Hfirst.
    destruct (run_retry_ops_unassigned ops (Action_init nm svc cmd tmo dly)
                self eq_refl (or_introl eq_refl) Hrun Hfirst) as [Hb Hr].
    split; [exact Hr | exact Hb].
Qed.

Lemma retry_counter_range_witness :
  let fresh := Action_init "start" svc_live None (-1) 3 in
  (exists self,
      run_retry_ops [OpAssign 1; OpDecrement; OpReset; OpDecrement] fresh
      = Ok self /\ 0 <= get_retry self) /\
  get_retry (reset fresh) = -1.
Proof.
  intros fresh. split.
  - exists (set__retry 0 (set__retry_backup 1 fresh)).
    assert (run_retry_ops [OpAssign 1; OpDecrement; OpReset; OpDecrement] fresh
            = Ok (set__retry 0 (set__retry_backup 1 fresh))) as Hrun
      by (vm_compute; reflexivity).
    split; [exact Hrun|].
    destruct (retry_counter_range "start" svc_live None (-1) 3 _ _ Hrun)
      as (W & _).
    apply (W 1). reflexivity.
  - destruct (retry_counter_range "start" svc_live None (-1) 3 [] fresh
                eq_refl) as (_ & W).
    apply W. reflexivity.
Defined.
